(** * Monochrome-AI: the image request service and the interaction controller

    A shallow embedding of [src/services/geminiService.ts] and of the logic
    of [src/App.tsx] (state, handlers, the [disabled] attributes of the
    controls), with the properties of the request/response lifecycle.

    Layout: JavaScript strings; the values the provider exchanges; a small
    monad of asynchronous tasks; the service; the controller; the run-time
    that delivers user-interface events; then the lemmas. The controller
    and its properties stand in a section over the host's [toLowerCase];
    the closed examples follow the section. *)

From Stdlib Require Import String Ascii List Arith NArith Bool Lia.
Import ListNotations.
Local Open Scope N_scope.

(* ================================================================== *)
(** * JavaScript strings *)

Module Js.

(** A JavaScript string is a sequence of UTF-16 code units. *)
Definition jsstring : Type := list N.

(** An ASCII literal as code units. *)
Definition lit (s : string) : jsstring :=
  List.map N_of_ascii (list_ascii_of_string s).

(** [!s] on a string: only the empty string is falsy. *)
Definition falsy (s : jsstring) : bool :=
  match s with [] => true | _ :: _ => false end.

(** [!v] on a [string | null] (or [string | undefined]) value. *)
Definition falsyOpt (v : option jsstring) : bool :=
  match v with None => true | Some s => falsy s end.

(** [a || b] on strings. *)
Definition orElse (a b : jsstring) : jsstring :=
  if falsy a then b else a.

(** WhiteSpace and LineTerminator code points of ECMAScript, the ones
    [String.prototype.trim] strips: TAB, LF, VT, FF, CR, SP, NBSP, U+1680,
    U+2000..U+200A, LS, PS, U+202F, U+205F, U+3000 and U+FEFF. *)
Definition isWhiteSpace (c : N) : bool :=
  ((9 <=? c) && (c <=? 13)) || (c =? 32) || (c =? 160) || (c =? 5760)
  || ((8192 <=? c) && (c <=? 8202)) || (c =? 8232) || (c =? 8233)
  || (c =? 8239) || (c =? 8287) || (c =? 12288) || (c =? 65279).

Fixpoint trimStart (s : jsstring) : jsstring :=
  match s with
  | [] => []
  | c :: s' => if isWhiteSpace c then trimStart s' else s
  end.

Fixpoint trimEnd (s : jsstring) : jsstring :=
  match s with
  | [] => []
  | c :: s' =>
      match trimEnd s' with
      | [] => if isWhiteSpace c then [] else [c]
      | t => c :: t
      end
  end.

(** [s.trim()] *)
Definition trim (s : jsstring) : jsstring := trimEnd (trimStart s).

(** Empty, or white space only. *)
Definition isBlank (s : jsstring) : Prop :=
  Forall (fun c => isWhiteSpace c = true) s.

(** Lower-casing of an ASCII code unit: A-Z to a-z. *)
Definition asciiLower (c : N) : N :=
  if (65 <=? c) && (c <=? 90) then c + 32 else c.

(** A string of ASCII code units. *)
Definition isAscii (s : jsstring) : Prop := Forall (fun c => c < 128) s.

(** [String.prototype.toLowerCase] is the host's, and the case table it
    follows (Unicode's) is no part of the repository. The development
    takes the function as a parameter and uses two facts about it. On a
    string of ASCII units it lowers A-Z unit by unit and leaves the other
    units as they are; ... *)
Definition lowersAscii (f : jsstring -> jsstring) : Prop :=
  forall s, isAscii s -> f s = List.map asciiLower s.

(** ... and it maps no non-empty string to the empty string. *)
Definition keepsNonEmpty (f : jsstring -> jsstring) : Prop :=
  forall s, f s = [] -> s = [].

(** A function with these two properties, for the closed examples. It
    follows the case table on the units below U+0100 and on the two
    characters beyond ASCII whose lower case contains ASCII letters,
    U+0130 (to "i" and the combining dot U+0307) and the Kelvin sign
    U+212A (to "k"); the examples apply it to such strings only. *)
Definition tableLowerUnit (c : N) : jsstring :=
  if (65 <=? c) && (c <=? 90) then [c + 32]
  else if (192 <=? c) && (c <=? 222) && negb (c =? 215) then [c + 32]
  else if c =? 304 then [105; 775]
  else if c =? 8490 then [107]
  else [c].

Definition tableLowerCase (s : jsstring) : jsstring :=
  List.flat_map tableLowerUnit s.

(** The character class [[a-z0-9_]]. *)
Definition isWordUnit (c : N) : bool :=
  ((97 <=? c) && (c <=? 122)) || ((48 <=? c) && (c <=? 57)) || (c =? 95).

Definition underscore : N := 95.

(** [s.replace(/[^a-z0-9_]+/g, '_')]: scanning left to right, every maximal
    run of units outside the class is one match of the greedy [+] and is
    replaced by one underscore. [inRun] tells that the unit before the
    current one belonged to a match. *)
Fixpoint replaceFrom (inRun : bool) (s : jsstring) : jsstring :=
  match s with
  | [] => []
  | c :: s' =>
      if isWordUnit c then c :: replaceFrom false s'
      else if inRun then replaceFrom true s'
      else underscore :: replaceFrom true s'
  end.

Definition replaceNonWordRuns (s : jsstring) : jsstring := replaceFrom false s.

(** [s.substring(0, n)] *)
Definition substring0 (n : nat) (s : jsstring) : jsstring := firstn n s.

End Js.

Import Js.

(** Boolean tests on code units as arithmetic. *)
Ltac boolify :=
  rewrite ?orb_true_iff, ?andb_true_iff, ?negb_true_iff, ?orb_false_iff,
    ?andb_false_iff, ?negb_false_iff, ?N.leb_le, ?N.leb_gt, ?N.eqb_eq, ?N.eqb_neq in *.

(* ================================================================== *)
(** * Values exchanged with the provider (the parts of [@google/genai]
      the service touches) *)

Module GenAI.

Record Blob : Type := { mimeType : option jsstring; data : jsstring }.

(** A content part: [text?] and [inlineData?]. *)
Record Part : Type := { text : option jsstring; inlineData : option Blob }.

Record Content : Type := { parts : option (list Part) }.

Record Candidate : Type := { content : option Content }.

Record GenerateContentResponse : Type :=
  { candidates : option (list Candidate) }.

Inductive Modality : Type := TEXT | IMAGE | AUDIO.

Record GenerateContentConfig : Type := { responseModalities : list Modality }.

Record GenerateContentParameters : Type :=
  { model : jsstring; contents : Content; config : GenerateContentConfig }.

(** The client object, [new GoogleGenAI({ apiKey })]. *)
Record GoogleGenAI : Type := { apiKey : jsstring }.

End GenAI.

Import GenAI.

(* ================================================================== *)
(** * Asynchronous tasks *)

(** What a [throw] carries: an instance of [Error] with its [message], or
    any other value. *)
Inductive Thrown : Type :=
| ErrorObject (message : jsstring)
| OtherValue (repr : jsstring).

(** How an evaluation, or a promise, ends: fulfilled or rejected. *)
Inductive Completion (A : Type) : Type :=
| Normal (a : A)
| Abrupt (e : Thrown).

Arguments Normal {A} a.
Arguments Abrupt {A} e.

(** The effects of the two source files other than the provider call: the
    four React state setters, [console.error], and the click on the
    temporary [<a href download>] element that saves the image. *)
Inductive Effect : Type :=
| SetPrompt (v : jsstring)
| SetGeneratedImage (v : option jsstring)
| SetIsLoading (v : bool)
| SetError (v : option jsstring)
| ConsoleError (label : jsstring) (e : Thrown)
| ClickLink (href download : jsstring).

(** The body of a (possibly [async]) function. [Await ai req k] is
    [await ai.models.generateContent(req)], the only suspension point of
    the program: [k] is what runs once the provider has settled the call. *)
Inductive Task (A : Type) : Type :=
| Return (a : A)
| Throw (e : Thrown)
| Do (ef : Effect) (k : Task A)
| Await (ai : GoogleGenAI) (req : GenerateContentParameters)
        (k : Completion GenerateContentResponse -> Task A).

Arguments Return {A} a.
Arguments Throw {A} e.
Arguments Do {A} ef k.
Arguments Await {A} ai req k.

Fixpoint bind {A B : Type} (t : Task A) (f : A -> Task B) : Task B :=
  match t with
  | Return a => f a
  | Throw e => Throw e
  | Do ef k => Do ef (bind k f)
  | Await ai req k => Await ai req (fun o => bind (k o) f)
  end.

Notation "x <- t ;; k" := (bind t (fun x => k))
  (at level 61, t at next level, right associativity).
Notation "t ;; k" := (bind t (fun _ => k))
  (at level 61, right associativity).

(** [try { t } catch (e) { handler e }] *)
Fixpoint tryCatch {A : Type} (t : Task A) (handler : Thrown -> Task A)
  : Task A :=
  match t with
  | Return a => Return a
  | Throw e => handler e
  | Do ef k => Do ef (tryCatch k handler)
  | Await ai req k => Await ai req (fun o => tryCatch (k o) handler)
  end.

(** [try { t } finally { cleanup }] *)
Fixpoint tryFinally {A : Type} (t : Task A) (cleanup : Task unit) : Task A :=
  match t with
  | Return a => cleanup ;; Return a
  | Throw e => cleanup ;; Throw e
  | Do ef k => Do ef (tryFinally k cleanup)
  | Await ai req k => Await ai req (fun o => tryFinally (k o) cleanup)
  end.

Definition perform (ef : Effect) : Task unit := Do ef (Return tt).

(** [await ai.models.generateContent(req)] *)
Definition generateContent (ai : GoogleGenAI) (req : GenerateContentParameters)
  : Task GenerateContentResponse :=
  Await ai req (fun o => match o with Normal r => Return r | Abrupt e => Throw e end).

(** What a task does, in order. *)
Inductive Event : Type :=
| Performed (ef : Effect)
| Called (ai : GoogleGenAI) (req : GenerateContentParameters).

(** A task run to its end against a provider that settles every call at
    once: the events in order, and how the task ends. *)
Fixpoint exec {A : Type}
    (provider : GoogleGenAI -> GenerateContentParameters ->
                Completion GenerateContentResponse)
    (t : Task A) : list Event * Completion A :=
  match t with
  | Return a => ([], Normal a)
  | Throw e => ([], Abrupt e)
  | Do ef k => let (tr, c) := exec provider k in (Performed ef :: tr, c)
  | Await ai req k =>
      let (tr, c) := exec provider (k (provider ai req)) in (Called ai req :: tr, c)
  end.

(** The provider calls of a trace. *)
Fixpoint callsOf (tr : list Event) : list (GoogleGenAI * GenerateContentParameters) :=
  match tr with
  | [] => []
  | Called ai req :: tr' => (ai, req) :: callsOf tr'
  | Performed _ :: tr' => callsOf tr'
  end.

(* ================================================================== *)
(** * [src/services/geminiService.ts] *)

Module GeminiService.

(** [process.env], as far as the module reads it. *)
Record ProcessEnv : Type := { API_KEY : option jsstring }.

Definition apiKeyNotSet : jsstring :=
  lit "API_KEY environment variable is not set.".

(** The module body, evaluated once when the module is imported: the guard
    on [process.env.API_KEY], then [const ai = new GoogleGenAI(...)]. *)
Definition loadModule (env : ProcessEnv) : Completion GoogleGenAI :=
  if falsyOpt (API_KEY env) then Abrupt (ErrorObject apiKeyNotSet)
  else
    match API_KEY env with
    | Some key => Normal {| apiKey := key |}
    | None => Abrupt (ErrorObject apiKeyNotSet)
    end.

(** The text appended to every prompt:
    ", promptu sadece arkaplan siyah olacak (s-cedilla)ekilde sadece beyaz
    renk kullanarak (c-cedilla)izecek". *)
Definition styleSuffix : jsstring :=
  lit ", promptu sadece arkaplan siyah olacak " ++ [351] ++
  lit "ekilde sadece beyaz renk kullanarak " ++ [231] ++ lit "izecek".

Definition consoleLabel : jsstring :=
  lit "Error generating image with Gemini:".

Definition noImageData : jsstring :=
  lit "No image data found in the API response.".

Definition failedPrefix : jsstring := lit "Failed to generate image: ".

Definition unknownServiceError : jsstring :=
  lit "An unknown error occurred while generating the image.".

(** [response.candidates?.[0]?.content?.parts || []] *)
Definition responseParts (response : GenerateContentResponse) : list Part :=
  match candidates response with
  | Some (candidate :: _) =>
      match content candidate with
      | Some c => match parts c with Some ps => ps | None => [] end
      | None => []
      end
  | _ => []
  end.

(** [for (const part of ps) { if (part.inlineData) return part.inlineData.data; }]
    followed by [after]. *)
Fixpoint forParts (ps : list Part) (after : Task jsstring) : Task jsstring :=
  match ps with
  | [] => after
  | part :: rest =>
      match inlineData part with
      | Some blob => Return (data blob)
      | None => forParts rest after
      end
  end.

Definition requestFor (fullPrompt : jsstring) : GenerateContentParameters :=
  {| model := lit "gemini-2.5-flash-image";
     contents := {| parts := Some [ {| text := Some fullPrompt; inlineData := None |} ] |};
     config := {| responseModalities := [IMAGE] |} |}.

Definition generateMonochromeImage (ai : GoogleGenAI) (prompt : jsstring)
  : Task jsstring :=
  let fullPrompt := prompt ++ styleSuffix in
  tryCatch
    (response <- generateContent ai (requestFor fullPrompt) ;;
     forParts (responseParts response) (Throw (ErrorObject noImageData)))
    (fun error =>
       perform (ConsoleError consoleLabel error) ;;
       match error with
       | ErrorObject message => Throw (ErrorObject (failedPrefix ++ message))
       | OtherValue _ => Throw (ErrorObject unknownServiceError)
       end).

End GeminiService.

Import GeminiService.

(* ================================================================== *)
(** * [src/App.tsx]: state and handlers *)

Section Host.

(** [prompt.toLowerCase()] of the host, see [lowersAscii] and
    [keepsNonEmpty]. *)
Variable toLowerCase : jsstring -> jsstring.
Hypothesis toLowerCase_ascii : lowersAscii toLowerCase.
Hypothesis toLowerCase_nonempty : keepsNonEmpty toLowerCase.

(** The four [useState] cells of the component. *)
Record AppState : Type :=
  { prompt : jsstring;
    generatedImage : option jsstring;
    isLoading : bool;
    error : option jsstring }.

Definition initialState : AppState :=
  {| prompt := []; generatedImage := None; isLoading := false; error := None |}.

Definition promptRequired : jsstring := lit "Please enter a prompt.".

Definition unknownError : jsstring := lit "An unknown error occurred.".

Definition dataUriPrefix : jsstring := lit "data:image/png;base64,".

(** The [catch (err)] clause of [handleSubmit]. *)
Definition submitCatch (err : Thrown) : Task unit :=
  let errorMessage :=
    match err with
    | ErrorObject message => message
    | OtherValue _ => unknownError
    end in
  perform (SetError (Some errorMessage)).

(** [handleSubmit], with the state of the render it was created in. [ai]
    is the client of the service module. *)
Definition handleSubmit (ai : GoogleGenAI) (st : AppState) : Task unit :=
  if falsy (trim (prompt st)) then
    perform (SetError (Some promptRequired))
  else
    perform (SetIsLoading true) ;;
    perform (SetError None) ;;
    perform (SetGeneratedImage None) ;;
    tryFinally
      (tryCatch
         (newImageBase64 <- generateMonochromeImage ai (prompt st) ;;
          perform (SetGeneratedImage (Some (dataUriPrefix ++ newImageBase64))))
         submitCatch)
      (perform (SetIsLoading false)).

Definition defaultFilename : jsstring := lit "generated_image".

(** [const filename = prompt.trim().toLowerCase()
      .replace(/[^a-z0-9_]+/g, '_').substring(0, 50) || 'generated_image'] *)
Definition filename (prompt : jsstring) : jsstring :=
  orElse (substring0 50 (replaceNonWordRuns (toLowerCase (trim prompt))))
         defaultFilename.

(** [link.download], the name the image is saved under. *)
Definition downloadName (prompt : jsstring) : jsstring :=
  filename prompt ++ lit ".png".

(** [handleDownload]: nothing without an image; otherwise a temporary link
    to the image is created, added to the document, clicked and removed. *)
Definition handleDownload (st : AppState) : Task unit :=
  match generatedImage st with
  | None => Return tt
  | Some href =>
      if falsy href then Return tt
      else perform (ClickLink href (downloadName (prompt st)))
  end.

(** [const isGenerateDisabled = !prompt.trim() || isLoading] *)
Definition isGenerateDisabled (st : AppState) : bool :=
  falsy (trim (prompt st)) || isLoading st.

(** The download button is rendered under [generatedImage && !isLoading]. *)
Definition downloadRendered (st : AppState) : bool :=
  negb (falsyOpt (generatedImage st)) && negb (isLoading st).

(** The [onChange] handler of the textarea. *)
Definition handleChange (value : jsstring) : Task unit :=
  perform (SetPrompt value).

(* ================================================================== *)
(** * The run-time: state cells, pending calls and user-interface events *)

(** A provider call that has not settled, with the rest of the handler
    that awaits it. *)
Record Pending : Type :=
  { client : GoogleGenAI;
    request : GenerateContentParameters;
    resume : Completion GenerateContentResponse -> Task unit }.

Record World : Type :=
  { app : AppState;
    inflight : list Pending;
    calls : list (GoogleGenAI * GenerateContentParameters);
    outputs : list Effect }.

Definition setApp (st : AppState) (w : World) : World :=
  {| app := st; inflight := inflight w; calls := calls w; outputs := outputs w |}.

Definition applyEffect (ef : Effect) (w : World) : World :=
  let st := app w in
  match ef with
  | SetPrompt v =>
      setApp {| prompt := v; generatedImage := generatedImage st;
                isLoading := isLoading st; error := error st |} w
  | SetGeneratedImage v =>
      setApp {| prompt := prompt st; generatedImage := v;
                isLoading := isLoading st; error := error st |} w
  | SetIsLoading v =>
      setApp {| prompt := prompt st; generatedImage := generatedImage st;
                isLoading := v; error := error st |} w
  | SetError v =>
      setApp {| prompt := prompt st; generatedImage := generatedImage st;
                isLoading := isLoading st; error := v |} w
  | ConsoleError _ _ | ClickLink _ _ =>
      {| app := app w; inflight := inflight w; calls := calls w;
         outputs := outputs w ++ [ef] |}
  end.

(** A handler run until it ends or suspends on the provider. The promise
    an [async] handler returns is dropped by the caller. *)
Fixpoint run (t : Task unit) (w : World) : World :=
  match t with
  | Return _ => w
  | Throw _ => w
  | Do ef k => run k (applyEffect ef w)
  | Await ai req k =>
      {| app := app w;
         inflight := inflight w ++ [ {| client := ai; request := req; resume := k |} ];
         calls := calls w ++ [(ai, req)];
         outputs := outputs w |}
  end.

Fixpoint removeNth {A : Type} (i : nat) (l : list A) : list A :=
  match l, i with
  | [], _ => []
  | _ :: l', O => l'
  | x :: l', S i' => x :: removeNth i' l'
  end.

(** What can happen to the mounted component. *)
Inductive UIEvent : Type :=
| ChangePrompt (value : jsstring)
| ClickGenerate
| ClickDownload
| ProviderSettles (i : nat) (o : Completion GenerateContentResponse).

(** One event. A disabled control delivers nothing: the textarea is
    [disabled={isLoading}], the generate button
    [disabled={isGenerateDisabled}], and the download button exists only
    when [downloadRendered]. *)
Definition step (ai : GoogleGenAI) (w : World) (ev : UIEvent) : World :=
  match ev with
  | ChangePrompt value =>
      if isLoading (app w) then w else run (handleChange value) w
  | ClickGenerate =>
      if isGenerateDisabled (app w) then w else run (handleSubmit ai (app w)) w
  | ClickDownload =>
      if downloadRendered (app w) then run (handleDownload (app w)) w else w
  | ProviderSettles i o =>
      match nth_error (inflight w) i with
      | Some p =>
          run (resume p o)
              {| app := app w; inflight := removeNth i (inflight w);
                 calls := calls w; outputs := outputs w |}
      | None => w
      end
  end.

Definition steps (ai : GoogleGenAI) (w : World) (evs : list UIEvent) : World :=
  fold_left (step ai) evs w.

Definition initialWorld : World :=
  {| app := initialState; inflight := []; calls := []; outputs := [] |}.

(** Start of the process: the service module is loaded, and only then can
    the component mount. *)
Definition start (env : ProcessEnv) : Completion (GoogleGenAI * World) :=
  match loadModule env with
  | Normal ai => Normal (ai, initialWorld)
  | Abrupt e => Abrupt e
  end.

Inductive reachable (ai : GoogleGenAI) : World -> Prop :=
| reachable_initial : reachable ai initialWorld
| reachable_step w ev : reachable ai w -> reachable ai (step ai w ev).

(* ================================================================== *)
(** * Notions the statements use *)

(** The sanitising of the download name in the words of the specification:
    units of [[a-z0-9_]] are kept, and every maximal run of other units
    becomes one underscore. A run is maximal when what follows it is empty
    or starts with a kept unit. *)
Inductive Collapsed : jsstring -> jsstring -> Prop :=
| Collapsed_nil : Collapsed [] []
| Collapsed_keep c s t :
    isWordUnit c = true -> Collapsed s t -> Collapsed (c :: s) (c :: t)
| Collapsed_run r s t :
    r <> [] ->
    Forall (fun c => isWordUnit c = false) r ->
    match s with [] => True | c :: _ => isWordUnit c = true end ->
    Collapsed s t ->
    Collapsed (r ++ s) (underscore :: t).

(** A part without inline image data. *)
Definition textOnly (p : Part) : Prop := inlineData p = None.

(** The first inline image data of a list of parts, if any. *)
Fixpoint firstInlineData (ps : list Part) : option jsstring :=
  match ps with
  | [] => None
  | p :: rest =>
      match inlineData p with
      | Some blob => Some (data blob)
      | None => firstInlineData rest
      end
  end.

(** What the service does after the provider has settled its call. *)
Definition serviceOutcome (o : Completion GenerateContentResponse)
  : list Event * Completion jsstring :=
  match o with
  | Normal response =>
      match firstInlineData (responseParts response) with
      | Some d => ([], Normal d)
      | None =>
          ([Performed (ConsoleError consoleLabel (ErrorObject noImageData))],
           Abrupt (ErrorObject (failedPrefix ++ noImageData)))
      end
  | Abrupt (ErrorObject message) =>
      ([Performed (ConsoleError consoleLabel (ErrorObject message))],
       Abrupt (ErrorObject (failedPrefix ++ message)))
  | Abrupt (OtherValue v) =>
      ([Performed (ConsoleError consoleLabel (OtherValue v))],
       Abrupt (ErrorObject unknownServiceError))
  end.

(** The continuation a task leaves behind when it suspends. *)
Fixpoint afterAwait (t : Task unit) : Completion GenerateContentResponse -> Task unit :=
  match t with
  | Await _ _ k => k
  | Do _ k => afterAwait k
  | Return _ | Throw _ => fun _ => Return tt
  end.

(** A continuation that, however the provider settles, ends with the
    loading flag down, without a further call, with the prompt kept, and
    without showing the start-up error of the service module. *)
Definition finishes (k : Completion GenerateContentResponse -> Task unit) : Prop :=
  forall o w,
    isLoading (app (run (k o) w)) = false /\
    inflight (run (k o) w) = inflight w /\
    calls (run (k o) w) = calls w /\
    prompt (app (run (k o) w)) = prompt (app w) /\
    (error (app w) <> Some apiKeyNotSet ->
     error (app (run (k o) w)) <> Some apiKeyNotSet).

(** The single-flight invariant: a call is pending exactly while the
    loading flag is up, there is one at most, and a loading state shows
    neither an error nor an image. *)
Definition singleFlight (w : World) : Prop :=
  (if isLoading (app w)
   then error (app w) = None /\ generatedImage (app w) = None /\
        falsy (trim (prompt (app w))) = false /\
        exists p, inflight w = [p] /\ finishes (resume p)
   else inflight w = []) /\
  error (app w) <> Some apiKeyNotSet.

(** Values for the examples. *)
Definition exampleClient : GoogleGenAI := {| apiKey := lit "key" |}.

Definition responseOf (ps : list Part) : GenerateContentResponse :=
  {| candidates := Some [ {| content := Some {| parts := Some ps |} |} ] |}.

Definition textPart (s : jsstring) : Part :=
  {| text := Some s; inlineData := None |}.

Definition imagePart (d : jsstring) : Part :=
  {| text := None; inlineData := Some {| mimeType := Some (lit "image/png"); data := d |} |}.

(** A mounted component whose prompt has been typed. *)
Definition typed (p : jsstring) : World :=
  step exampleClient initialWorld (ChangePrompt p).

(* ================================================================== *)
(** * [src/App.tsx]: what the component renders *)

(** The parts of the returned JSX that depend on the state: the textarea,
    the generate button (disabled flag, and the spinner in place of the
    label), the error box [{error && ...}], the loading overlay
    [{isLoading && ...}], the image or else the placeholder paragraph
    [{generatedImage ? <img src=.../> : <p>...</p>}], and the download
    button [{generatedImage && !isLoading && ...}]. *)
Record View : Type :=
  { textareaValue : jsstring;
    textareaDisabled : bool;
    generateDisabled : bool;
    generateSpinner : bool;
    errorBox : option jsstring;
    overlay : bool;
    img : option jsstring;
    downloadButton : bool }.

(** [x && <element/>] and [x ? <element/> : ...] on a [string | null]:
    the element is there for a non-empty string. *)
Definition whenTruthy (v : option jsstring) : option jsstring :=
  if falsyOpt v then None else v.

Definition render (st : AppState) : View :=
  {| textareaValue := prompt st;
     textareaDisabled := isLoading st;
     generateDisabled := isGenerateDisabled st;
     generateSpinner := isLoading st;
     errorBox := whenTruthy (error st);
     overlay := isLoading st;
     img := whenTruthy (generatedImage st);
     downloadButton := downloadRendered st |}.

(* ================================================================== *)
(** * Notions of the further properties *)

(** The pending call of a [handleSubmit] started in state [st]. *)
Definition pendingSubmit (ai : GoogleGenAI) (st : AppState) : Pending :=
  {| client := ai;
     request := requestFor (prompt st ++ styleSuffix);
     resume := afterAwait (handleSubmit ai st) |}.

(** The messages the service rejects with. *)
Definition serviceMessage (m : jsstring) : Prop :=
  (exists detail, m = failedPrefix ++ detail) \/ m = unknownServiceError.

(** The four shapes of the state cells: at rest with nothing, with an
    image, or with an error of the service; or loading, with the one
    pending call of the submit that started it. *)
Definition shaped (ai : GoogleGenAI) (w : World) : Prop :=
  (isLoading (app w) = false /\ inflight w = [] /\
   ((generatedImage (app w) = None /\ error (app w) = None)
    \/ (exists d, generatedImage (app w) = Some (dataUriPrefix ++ d) /\
                  error (app w) = None)
    \/ (exists m, generatedImage (app w) = None /\ error (app w) = Some m /\
                  serviceMessage m)))
  \/ (isLoading (app w) = true /\ generatedImage (app w) = None /\
      error (app w) = None /\
      exists st, falsy (trim (prompt st)) = false /\
                 prompt st = prompt (app w) /\
                 inflight w = [pendingSubmit ai st]).

(** A provider call as the controller issues them. *)
Definition submittedCall (ai : GoogleGenAI)
    (c : GoogleGenAI * GenerateContentParameters) : Prop :=
  exists p, falsy (trim p) = false /\ c = (ai, requestFor (p ++ styleSuffix)).

(** An output as the program produces them: a log line of the service, or
    the saving of a data URI under the name made from some prompt. *)
Definition producedOutput (ef : Effect) : Prop :=
  match ef with
  | ConsoleError label _ => label = consoleLabel
  | ClickLink href name =>
      (exists d, href = dataUriPrefix ++ d) /\
      (exists p, name = filename p ++ lit ".png")
  | _ => False
  end.

Definition coherent (ai : GoogleGenAI) (w : World) : Prop :=
  shaped ai w /\ Forall (submittedCall ai) (calls w) /\
  Forall producedOutput (outputs w).

(** The console lines of a trace. *)
Fixpoint logsOf (tr : list Event) : list (jsstring * Thrown) :=
  match tr with
  | [] => []
  | Performed (ConsoleError label e) :: tr' => (label, e) :: logsOf tr'
  | _ :: tr' => logsOf tr'
  end.

(** Evaluation of tasks and of worlds, leaving the string constants
    folded. *)
Ltac task_step :=
  cbn [exec run bind tryCatch tryFinally perform generateContent forParts
       callsOf fst snd afterAwait submitCatch handleChange].

Ltac world_step :=
  cbn [applyEffect setApp app inflight calls outputs
       prompt generatedImage isLoading error].

(* ================================================================== *)
(** * Lemmas on strings *)

Lemma trimStart_nil_iff (s : jsstring) : trimStart s = [] <-> isBlank s.
Proof.
  unfold isBlank. induction s as [|c s IH]; simpl.
  - split; auto.
  - destruct (isWhiteSpace c) eqn:E.
    + rewrite IH. split; intro H.
      * constructor; assumption.
      * inversion H; assumption.
    + split; [discriminate|]. intro H. inversion H as [|? ? Hc]. subst.
      congruence.
Qed.

Lemma trimEnd_nil_iff (s : jsstring) : trimEnd s = [] <-> isBlank s.
Proof.
  unfold isBlank. induction s as [|c s IH]; simpl.
  - split; auto.
  - destruct (trimEnd s) as [|d t] eqn:Et.
    + destruct (isWhiteSpace c) eqn:E.
      * split; intros _; [|reflexivity].
        constructor; [exact E | apply IH; reflexivity].
      * split; [discriminate|]. intro H. inversion H as [|? ? Hc]. subst.
        congruence.
    + split; [discriminate|]. intro H. inversion H as [|? ? _ Hs]. subst.
      apply IH in Hs. discriminate.
Qed.

Lemma trimStart_head (s : jsstring) :
  match trimStart s with [] => True | c :: _ => isWhiteSpace c = false end.
Proof.
  induction s as [|c s IH]; simpl; [exact I|].
  destruct (isWhiteSpace c) eqn:E; [exact IH | exact E].
Qed.

(** The trimmed string is empty exactly for a blank string. *)
Lemma trim_nil_iff (s : jsstring) : trim s = [] <-> isBlank s.
Proof.
  unfold trim. rewrite trimEnd_nil_iff, <- (trimStart_nil_iff s).
  pose proof (trimStart_head s) as Hh.
  destruct (trimStart s) as [|c t].
  - split; intros _; [reflexivity | constructor].
  - split; [|discriminate]. intro H. inversion H as [|? ? Hc]. subst.
    congruence.
Qed.

Lemma toLowerCase_nil : toLowerCase [] = [].
Proof. rewrite toLowerCase_ascii by constructor. reflexivity. Qed.

Lemma toLowerCase_nil_iff (s : jsstring) : toLowerCase s = [] <-> s = [].
Proof.
  split; [apply toLowerCase_nonempty|].
  intros ->. apply toLowerCase_nil.
Qed.

(** On a prompt whose trimmed form is ASCII the name is computed unit by
    unit. *)
Lemma filename_ascii (p : jsstring) :
  isAscii (trim p) ->
  filename p =
  orElse (substring0 50 (replaceNonWordRuns (List.map asciiLower (trim p))))
         defaultFilename.
Proof. intro H. unfold filename. rewrite toLowerCase_ascii by exact H. reflexivity. Qed.

Lemma replaceFrom_skip (r s : jsstring) :
  Forall (fun c => isWordUnit c = false) r ->
  replaceFrom true (r ++ s) = replaceFrom true s.
Proof.
  induction 1 as [|c r Hc _ IH]; simpl; [reflexivity|].
  rewrite Hc. exact IH.
Qed.

Lemma replaceFrom_at_word (b : bool) (s : jsstring) :
  match s with [] => True | c :: _ => isWordUnit c = true end ->
  replaceFrom b s = replaceFrom false s.
Proof.
  destruct s as [|c s]; simpl; [reflexivity|].
  intros ->. reflexivity.
Qed.

(** A string splits into its leading run of units outside the class and a
    rest that is empty or starts inside the class. *)
Lemma leading_run (s : jsstring) :
  exists r rest,
    s = r ++ rest /\
    Forall (fun c => isWordUnit c = false) r /\
    match rest with [] => True | c :: _ => isWordUnit c = true end /\
    (List.length rest <= List.length s)%nat.
Proof.
  induction s as [|c s (r & rest & -> & Hr & Hrest & Hlen)].
  - exists [], []. simpl. auto.
  - destruct (isWordUnit c) eqn:E.
    + exists [], (c :: r ++ rest). simpl. auto.
    + exists (c :: r), rest. simpl. repeat split; auto with arith.
Qed.

Lemma Collapsed_replaceFrom (n : nat) :
  forall s, (List.length s <= n)%nat -> Collapsed s (replaceNonWordRuns s).
Proof.
  unfold replaceNonWordRuns.
  induction n as [|n IH]; intros [|c s] Hlen; simpl in *; try constructor; try lia.
  - destruct (isWordUnit c) eqn:E.
    + constructor; [exact E | apply IH; lia].
    + destruct (leading_run s) as (r & rest & -> & Hr & Hrest & Hl).
      rewrite replaceFrom_skip by exact Hr.
      rewrite (replaceFrom_at_word true) by exact Hrest.
      apply (Collapsed_run (c :: r) rest).
      * discriminate.
      * constructor; assumption.
      * exact Hrest.
      * apply IH. lia.
Qed.

(** The regular-expression replacement does what the specification words
    say, ... *)
Lemma Collapsed_replace (s : jsstring) : Collapsed s (replaceNonWordRuns s).
Proof. apply (Collapsed_replaceFrom (List.length s)). lia. Qed.

(** ... and nothing else does. *)
Lemma Collapsed_unique (s t : jsstring) :
  Collapsed s t -> t = replaceNonWordRuns s.
Proof.
  unfold replaceNonWordRuns.
  intro H. induction H as [|c s t Hc _ IH|r s t Hne Hr Hs _ IH]; simpl.
  - reflexivity.
  - rewrite Hc, IH. reflexivity.
  - rewrite IH. clear IH.
    destruct r as [|c r]; [contradiction Hne; reflexivity|].
    inversion Hr as [|? ? Hc Hr']. subst. simpl. rewrite Hc.
    rewrite replaceFrom_skip by exact Hr'.
    rewrite (replaceFrom_at_word true) by exact Hs.
    reflexivity.
Qed.

Lemma replaceNonWordRuns_nil_iff (s : jsstring) :
  replaceNonWordRuns s = [] <-> s = [].
Proof.
  unfold replaceNonWordRuns. destruct s as [|c s]; simpl; [tauto|].
  destruct (isWordUnit c); split; discriminate.
Qed.

Lemma replaceFrom_word (b : bool) (s : jsstring) :
  Forall (fun c => isWordUnit c = true) (replaceFrom b s).
Proof.
  revert b. induction s as [|c s IH]; intro b; simpl; [constructor|].
  destruct (isWordUnit c) eqn:E.
  - constructor; [exact E | apply IH].
  - destruct b; [apply IH|]. constructor; [reflexivity | apply IH].
Qed.

Lemma substring0_nil_iff (n : nat) (s : jsstring) :
  substring0 (S n) s = [] <-> s = [].
Proof. destruct s; simpl; split; intro H; try reflexivity; discriminate. Qed.

Lemma Forall_firstn {A : Type} (P : A -> Prop) (n : nat) (l : list A) :
  Forall P l -> Forall P (firstn n l).
Proof.
  revert l. induction n as [|n IH]; intros [|x l] H; simpl; try constructor.
  - inversion H; assumption.
  - apply IH. inversion H; assumption.
Qed.

(* ================================================================== *)
(** * Lemmas on the service *)

Lemma forParts_firstInlineData (ps : list Part) (after : Task jsstring) :
  forParts ps after =
  match firstInlineData ps with Some d => Return d | None => after end.
Proof.
  induction ps as [|p ps IH]; simpl; [reflexivity|].
  destruct (inlineData p); [reflexivity | exact IH].
Qed.

Lemma firstInlineData_first (pre post : list Part) (p : Part) (b : Blob) :
  Forall textOnly pre -> inlineData p = Some b ->
  firstInlineData (pre ++ p :: post) = Some (data b).
Proof.
  intros Hpre Hp. induction Hpre as [|q pre Hq _ IH]; simpl.
  - rewrite Hp. reflexivity.
  - unfold textOnly in Hq. rewrite Hq. exact IH.
Qed.

Lemma firstInlineData_none (ps : list Part) :
  Forall textOnly ps -> firstInlineData ps = None.
Proof.
  induction 1 as [|q ps Hq _ IH]; simpl; [reflexivity|].
  unfold textOnly in Hq. rewrite Hq. exact IH.
Qed.

Lemma exec_generateMonochromeImage ai prompt provider :
  exec provider (generateMonochromeImage ai prompt) =
  let req := requestFor (prompt ++ styleSuffix) in
  (Called ai req :: fst (serviceOutcome (provider ai req)),
   snd (serviceOutcome (provider ai req))).
Proof.
  unfold generateMonochromeImage. task_step.
  destruct (provider ai (requestFor (prompt ++ styleSuffix))) as [r | [m | v]];
    task_step; cbn [serviceOutcome fst snd]; try reflexivity.
  rewrite forParts_firstInlineData.
  destruct (firstInlineData (responseParts r)); reflexivity.
Qed.

(* ================================================================== *)
(** * Lemmas on the controller *)

Lemma handleSubmit_blank ai st :
  falsy (trim (prompt st)) = true ->
  handleSubmit ai st = perform (SetError (Some promptRequired)).
Proof. unfold handleSubmit. intros ->. reflexivity. Qed.

Lemma run_handleSubmit ai st w :
  falsy (trim (prompt st)) = false ->
  run (handleSubmit ai st) w =
  {| app := {| prompt := prompt (app w); generatedImage := None;
               isLoading := true; error := None |};
     inflight := inflight w ++
       [ {| client := ai; request := requestFor (prompt st ++ styleSuffix);
            resume := afterAwait (handleSubmit ai st) |} ];
     calls := calls w ++ [(ai, requestFor (prompt st ++ styleSuffix))];
     outputs := outputs w |}.
Proof.
  unfold handleSubmit, generateMonochromeImage. intros ->.
  task_step. world_step. reflexivity.
Qed.

(** The rest of [handleSubmit] once the provider has settled. *)
Lemma run_resume ai st o w :
  falsy (trim (prompt st)) = false ->
  run (afterAwait (handleSubmit ai st) o) w =
  {| app :=
       {| prompt := prompt (app w);
          generatedImage :=
            match snd (serviceOutcome o) with
            | Normal d => Some (dataUriPrefix ++ d)
            | Abrupt _ => generatedImage (app w)
            end;
          isLoading := false;
          error :=
            match snd (serviceOutcome o) with
            | Normal _ => error (app w)
            | Abrupt (ErrorObject message) => Some message
            | Abrupt (OtherValue _) => Some unknownError
            end |};
     inflight := inflight w;
     calls := calls w;
     outputs :=
       outputs w ++
       match o with
       | Normal r =>
           match firstInlineData (responseParts r) with
           | Some _ => []
           | None => [ConsoleError consoleLabel (ErrorObject noImageData)]
           end
       | Abrupt e => [ConsoleError consoleLabel e]
       end |}.
Proof.
  unfold handleSubmit, generateMonochromeImage. intros ->. task_step.
  destruct o as [r | [m | v]]; task_step; cbn [serviceOutcome snd].
  - rewrite forParts_firstInlineData.
    destruct (firstInlineData (responseParts r)); task_step; world_step;
      rewrite ?app_nil_r; reflexivity.
  - world_step. reflexivity.
  - world_step. reflexivity.
Qed.

Lemma failed_not_apiKeyNotSet (message : jsstring) :
  failedPrefix ++ message <> apiKeyNotSet.
Proof. intro H. vm_compute in H. discriminate H. Qed.

Lemma unknown_not_apiKeyNotSet : unknownServiceError <> apiKeyNotSet.
Proof. intro H. vm_compute in H. discriminate H. Qed.

Lemma Abrupt_ErrorObject_inj (A : Type) (a b : jsstring) :
  @Abrupt A (ErrorObject a) = Abrupt (ErrorObject b) -> a = b.
Proof. intro H. inversion H. reflexivity. Qed.

Lemma Some_inj (A : Type) (a b : A) : Some a = Some b -> a = b.
Proof. intro H. inversion H. reflexivity. Qed.

Lemma serviceOutcome_not_apiKeyNotSet o :
  snd (serviceOutcome o) <> Abrupt (ErrorObject apiKeyNotSet).
Proof.
  destruct o as [r | [m | v]]; cbn [serviceOutcome snd].
  - destruct (firstInlineData (responseParts r)); cbn [snd]; [discriminate|].
    intro H. exact (failed_not_apiKeyNotSet _ (Abrupt_ErrorObject_inj _ _ _ H)).
  - intro H. exact (failed_not_apiKeyNotSet _ (Abrupt_ErrorObject_inj _ _ _ H)).
  - intro H. exact (unknown_not_apiKeyNotSet (Abrupt_ErrorObject_inj _ _ _ H)).
Qed.

Lemma unknownError_not_apiKeyNotSet : unknownError <> apiKeyNotSet.
Proof. intro H. vm_compute in H. discriminate H. Qed.

Lemma handleSubmit_finishes ai st :
  falsy (trim (prompt st)) = false -> finishes (afterAwait (handleSubmit ai st)).
Proof.
  intros H o w. rewrite (run_resume ai st o w H). world_step.
  repeat split; try reflexivity.
  intro Hw. pose proof (serviceOutcome_not_apiKeyNotSet o) as Hs.
  destruct (snd (serviceOutcome o)) as [d | [m | v]].
  - exact Hw.
  - intro E. apply Hs. rewrite (Some_inj _ _ _ E). reflexivity.
  - intro E. exact (unknownError_not_apiKeyNotSet (Some_inj _ _ _ E)).
Qed.

Lemma singleFlight_step ai w ev : singleFlight w -> singleFlight (step ai w ev).
Proof.
  unfold singleFlight. intros [Inv Herr].
  destruct ev as [v | | | i o]; cbn [step].
  - destruct (isLoading (app w)) eqn:L; [rewrite L; split; assumption|].
    task_step. world_step. rewrite L. split; assumption.
  - unfold isGenerateDisabled.
    destruct (falsy (trim (prompt (app w)))) eqn:B; cbn [orb].
    + rewrite B. split; assumption.
    + destruct (isLoading (app w)) eqn:L; [rewrite L, B; split; assumption|].
      rewrite run_handleSubmit by exact B. world_step.
      rewrite Inv. cbn [List.app]. split; [|discriminate].
      repeat split; try assumption.
      eexists. split; [reflexivity|]. cbn [resume].
      apply handleSubmit_finishes. exact B.
  - unfold downloadRendered, handleDownload.
    destruct (isLoading (app w)) eqn:L.
    + rewrite andb_false_r. rewrite L. split; assumption.
    + destruct (generatedImage (app w)) as [[|c href]|]; cbn [falsyOpt falsy negb andb];
        task_step; world_step; rewrite ?L; split; assumption.
  - destruct (isLoading (app w)) eqn:L.
    + pose proof Inv as (_ & _ & _ & p & Hp & Hfin). rewrite Hp.
      destruct i as [|i]; cbn [nth_error removeNth].
      * destruct (Hfin o {| app := app w; inflight := []; calls := calls w;
                            outputs := outputs w |}) as (Hl & Hi & _ & _ & He).
        rewrite Hl. split; [exact Hi | exact (He Herr)].
      * destruct i; cbn [nth_error]; rewrite L; split; assumption.
    + rewrite Inv. destruct i; cbn [nth_error]; rewrite L; split; assumption.
Qed.

Lemma reachable_singleFlight ai w : reachable ai w -> singleFlight w.
Proof.
  induction 1 as [|w ev _ IH].
  - split; [reflexivity | discriminate].
  - apply singleFlight_step. exact IH.
Qed.

(* ================================================================== *)
(** * The download name (claim C1) *)

Lemma filename_word (prompt : jsstring) :
  Forall (fun c => isWordUnit c = true) (filename prompt).
Proof.
  unfold filename, orElse, substring0, replaceNonWordRuns.
  destruct (falsy _).
  - vm_compute. repeat constructor.
  - apply Forall_firstn, replaceFrom_word.
Qed.

Lemma filename_length (prompt : jsstring) :
  (List.length (filename prompt) <= 50)%nat.
Proof.
  unfold filename, orElse, substring0.
  destruct (falsy _).
  - vm_compute. repeat constructor.
  - apply firstn_le_length.
Qed.

Lemma sanitized_nil_iff (prompt : jsstring) :
  substring0 50 (replaceNonWordRuns (toLowerCase (trim prompt))) = [] <->
  trim prompt = [].
Proof.
  rewrite substring0_nil_iff, replaceNonWordRuns_nil_iff, toLowerCase_nil_iff.
  tauto.
Qed.

(** C1, amended. With an image present, [handleDownload] saves it under
    [filename prompt ++ ".png"], where [filename] is the trimmed prompt in
    lower case (the host's [toLowerCase]), every maximal run of units
    outside [[a-z0-9_]] replaced by one underscore, cut to 50 units; the
    default name "generated_image"
    stands in exactly when the trimmed prompt is empty. The name consists
    of units of [[a-z0-9_]] and has at most 50 of them. "A Red Fox!! 2024"
    gives "a_red_fox_2024.png"; "###" gives "_.png". *)
Theorem C1_download_filename :
  (forall st href,
      generatedImage st = Some href -> href <> [] ->
      handleDownload st = perform (ClickLink href (filename (prompt st) ++ lit ".png")))
  /\ (forall prompt, exists t,
         Collapsed (toLowerCase (trim prompt)) t /\
         (forall t', Collapsed (toLowerCase (trim prompt)) t' -> t' = t) /\
         filename prompt = (if falsy (firstn 50 t) then defaultFilename else firstn 50 t) /\
         (firstn 50 t = [] <-> trim prompt = []))
  /\ (forall prompt,
         Forall (fun c => isWordUnit c = true) (filename prompt) /\
         (List.length (filename prompt) <= 50)%nat)
  /\ filename (lit "A Red Fox!! 2024") ++ lit ".png" = lit "a_red_fox_2024" ++ lit ".png"
  /\ filename (lit "###") ++ lit ".png" = lit "_.png".
Proof.
  split; [|split; [|split; [|split]]].
  - intros st href Himg Hne. unfold handleDownload, downloadName. rewrite Himg.
    destruct href; [contradiction Hne; reflexivity | reflexivity].
  - intro prompt. exists (replaceNonWordRuns (toLowerCase (trim prompt))).
    split; [apply Collapsed_replace|].
    split; [intros t' Ht'; apply Collapsed_unique; exact Ht'|].
    split; [reflexivity | apply sanitized_nil_iff].
  - intro prompt. split; [apply filename_word | apply filename_length].
  - rewrite filename_ascii by (vm_compute; repeat constructor).
    vm_compute. reflexivity.
  - rewrite filename_ascii by (vm_compute; repeat constructor).
    vm_compute. reflexivity.
Qed.

(* ================================================================== *)
(** * The service (claims C3, C7, C2, C8, C9) *)

(** C3. When the parts of the response hold inline image data, the service
    returns the data of the first part that has some: the parts before it
    (without image data) and everything after it are ignored, and nothing
    is logged. *)
Theorem C3_first_image_part ai prompt provider response pre p post blob :
  provider ai (requestFor (prompt ++ styleSuffix)) = Normal response ->
  responseParts response = pre ++ p :: post ->
  Forall textOnly pre ->
  inlineData p = Some blob ->
  exec provider (generateMonochromeImage ai prompt) =
  ([Called ai (requestFor (prompt ++ styleSuffix))], Normal (data blob)).
Proof.
  intros Hprov Hparts Hpre Hp.
  rewrite exec_generateMonochromeImage. cbv zeta. rewrite Hprov.
  cbn [serviceOutcome]. rewrite Hparts.
  rewrite (firstInlineData_first pre post p blob Hpre Hp). reflexivity.
Qed.

Lemma calls_generateMonochromeImage ai input provider :
  callsOf (fst (exec provider (generateMonochromeImage ai input))) =
  [(ai, requestFor (input ++ styleSuffix))].
Proof.
  rewrite exec_generateMonochromeImage. cbv zeta. cbn [fst callsOf]. f_equal.
  destruct (provider ai (requestFor (input ++ styleSuffix))) as [r | [m | v]];
    cbn [serviceOutcome fst callsOf]; try reflexivity.
  destruct (firstInlineData (responseParts r)); reflexivity.
Qed.

Lemma serviceOutcome_cases o :
  (exists d, snd (serviceOutcome o) = Normal d /\ fst (serviceOutcome o) = [])
  \/ (exists m thrown,
        snd (serviceOutcome o) = Abrupt (ErrorObject m) /\ serviceMessage m /\
        fst (serviceOutcome o) = [Performed (ConsoleError consoleLabel thrown)]).
Proof.
  destruct o as [r | [m | v]]; cbn [serviceOutcome].
  - destruct (firstInlineData (responseParts r)) as [d|]; cbn [fst snd].
    + left. exists d. split; reflexivity.
    + right. exists (failedPrefix ++ noImageData), (ErrorObject noImageData).
      repeat split. left. exists noImageData. reflexivity.
  - right. exists (failedPrefix ++ m), (ErrorObject m).
    repeat split. left. exists m. reflexivity.
  - right. exists unknownServiceError, (OtherValue v).
    repeat split. right. reflexivity.
Qed.

Lemma styleSuffix_length : List.length styleSuffix = 83%nat.
Proof. reflexivity. Qed.

(** C7. Whatever the prompt and however the provider answers, the service
    calls the provider exactly once, first thing, and the one text part it
    sends is the prompt followed by the fixed text ", promptu sadece
    arkaplan siyah olacak (s-cedilla)ekilde sadece beyaz renk kullanarak
    (c-cedilla)izecek", a constant of the module: 83 code units are added
    to the prompt, once (the text is neither the bare prompt nor the
    prompt with the suffix twice), and cutting the text after the prompt
    leaves the suffix. *)
Theorem C7_style_suffix_once ai prompt provider :
  callsOf (fst (exec provider (generateMonochromeImage ai prompt))) =
    [(ai,
      {| model := lit "gemini-2.5-flash-image";
         contents :=
           {| parts :=
                Some [ {| text :=
                            Some (prompt ++
                                  lit ", promptu sadece arkaplan siyah olacak " ++ [351] ++
                                  lit "ekilde sadece beyaz renk kullanarak " ++ [231] ++
                                  lit "izecek");
                          inlineData := None |} ] |};
         config := {| responseModalities := [IMAGE] |} |})]
  /\ (exists rest,
        fst (exec provider (generateMonochromeImage ai prompt)) =
        Called ai (requestFor (prompt ++ styleSuffix)) :: rest /\
        callsOf rest = [])
  /\ styleSuffix =
       lit ", promptu sadece arkaplan siyah olacak " ++ [351] ++
       lit "ekilde sadece beyaz renk kullanarak " ++ [231] ++ lit "izecek"
  /\ List.length (prompt ++ styleSuffix) = (List.length prompt + 83)%nat
  /\ prompt ++ styleSuffix <> prompt
  /\ prompt ++ styleSuffix <> (prompt ++ styleSuffix) ++ styleSuffix
  /\ parts (contents (requestFor (prompt ++ styleSuffix))) =
       Some [ {| text := Some (prompt ++ styleSuffix); inlineData := None |} ]
  /\ firstn (List.length prompt) (prompt ++ styleSuffix) = prompt
  /\ skipn (List.length prompt) (prompt ++ styleSuffix) = styleSuffix
  /\ responseModalities (config (requestFor (prompt ++ styleSuffix))) = [IMAGE].
Proof.
  split; [apply calls_generateMonochromeImage|].
  split.
  { rewrite exec_generateMonochromeImage. cbv zeta. cbn [fst].
    eexists. split; [reflexivity|].
    destruct (serviceOutcome_cases (provider ai (requestFor (prompt ++ styleSuffix))))
      as [(d & _ & ->) | (m & thrown & _ & _ & ->)]; reflexivity. }
  split; [reflexivity|].
  split; [rewrite length_app, styleSuffix_length; reflexivity|].
  split.
  { intro H. apply (f_equal (@List.length N)) in H.
    rewrite length_app, styleSuffix_length in H. lia. }
  split.
  { intro H. apply (f_equal (@List.length N)) in H.
    rewrite !length_app, styleSuffix_length in H. lia. }
  split; [reflexivity|].
  split.
  { rewrite firstn_app, firstn_all, Nat.sub_diag. cbn [firstn]. apply app_nil_r. }
  split; [|reflexivity].
  rewrite skipn_app, skipn_all, Nat.sub_diag. reflexivity.
Qed.

(** C2, as the specification states it, fails: the "no image data" error
    is thrown inside the [try] block, so the [catch] of the service wraps
    it like any provider failure. A response with text only and a provider
    failure whose message is the "no image data" text end in the same
    rejection, and its message is not the bare "no image data" text. *)
Lemma C2_no_image_data_is_wrapped :
  snd (exec (fun _ _ => Normal (responseOf [textPart (lit "x")]))
            (generateMonochromeImage exampleClient (lit "a cat")))
  = Abrupt (ErrorObject (failedPrefix ++ noImageData))
  /\ snd (exec (fun _ _ => Abrupt (ErrorObject noImageData))
               (generateMonochromeImage exampleClient (lit "a cat")))
     = Abrupt (ErrorObject (failedPrefix ++ noImageData))
  /\ failedPrefix ++ noImageData <> noImageData.
Proof.
  repeat split.
  intro H. vm_compute in H. discriminate H.
Qed.

Lemma enabled_inv st :
  isGenerateDisabled st = false ->
  falsy (trim (prompt st)) = false /\ isLoading st = false.
Proof. unfold isGenerateDisabled. apply orb_false_elim. Qed.

Lemma click_enabled ai w :
  reachable ai w -> isGenerateDisabled (app w) = false ->
  step ai w ClickGenerate =
  {| app := {| prompt := prompt (app w); generatedImage := None;
               isLoading := true; error := None |};
     inflight :=
       [ {| client := ai; request := requestFor (prompt (app w) ++ styleSuffix);
            resume := afterAwait (handleSubmit ai (app w)) |} ];
     calls := calls w ++ [(ai, requestFor (prompt (app w) ++ styleSuffix))];
     outputs := outputs w |}.
Proof.
  intros Hr Hen. cbn [step]. rewrite Hen.
  destruct (enabled_inv _ Hen) as [B L].
  rewrite run_handleSubmit by exact B.
  destruct (reachable_singleFlight ai w Hr) as [Inv _]. rewrite L in Inv.
  rewrite Inv. reflexivity.
Qed.

(** One whole request: a click on an enabled button, then the provider
    settles the call. *)
Lemma app_after_request ai w o :
  reachable ai w -> isGenerateDisabled (app w) = false ->
  app (step ai (step ai w ClickGenerate) (ProviderSettles 0 o)) =
  {| prompt := prompt (app w);
     generatedImage :=
       match snd (serviceOutcome o) with
       | Normal d => Some (dataUriPrefix ++ d)
       | Abrupt _ => None
       end;
     isLoading := false;
     error :=
       match snd (serviceOutcome o) with
       | Normal _ => None
       | Abrupt (ErrorObject message) => Some message
       | Abrupt (OtherValue _) => Some unknownError
       end |}.
Proof.
  intros Hr Hen. rewrite (click_enabled ai w Hr Hen).
  destruct (enabled_inv _ Hen) as [B _].
  cbn [step inflight nth_error removeNth resume app calls outputs].
  rewrite (run_resume ai (app w) o _ B). reflexivity.
Qed.

Lemma reachable_typed p : reachable exampleClient (typed p).
Proof. apply reachable_step, reachable_initial. Qed.

(** C2, amended. When the provider answers and no part of the answer has
    inline image data, the service logs and rejects with the fixed message
    "Failed to generate image: No image data found in the API response."
    (the "no image data" text under the same wrapping as provider
    failures); the controller then leaves loading with that message as its
    error and without an image. *)
Theorem C2_no_image_data ai input provider response :
  provider ai (requestFor (input ++ styleSuffix)) = Normal response ->
  Forall textOnly (responseParts response) ->
  exec provider (generateMonochromeImage ai input) =
    ([Called ai (requestFor (input ++ styleSuffix));
      Performed (ConsoleError consoleLabel (ErrorObject noImageData))],
     Abrupt (ErrorObject (failedPrefix ++ noImageData)))
  /\ forall w,
       reachable ai w -> isGenerateDisabled (app w) = false ->
       app (step ai (step ai w ClickGenerate) (ProviderSettles 0 (Normal response))) =
       {| prompt := prompt (app w); generatedImage := None; isLoading := false;
          error := Some (failedPrefix ++ noImageData) |}.
Proof.
  intros Hprov Htext. split.
  - rewrite exec_generateMonochromeImage. cbv zeta. rewrite Hprov.
    cbn [serviceOutcome]. rewrite (firstInlineData_none _ Htext). reflexivity.
  - intros w Hr Hen. rewrite (app_after_request ai w _ Hr Hen).
    cbn [serviceOutcome]. rewrite (firstInlineData_none _ Htext). reflexivity.
Qed.

(** C8, amended. When the provider call fails with an [Error], the
    service rejects with an [Error] whose message is
    "Failed to generate image: " followed by the provider's message,
    unchanged. When it fails with a value that is not an [Error], that
    value is dropped: the service rejects with the fixed
    "An unknown error occurred while generating the image.". The
    controller stores the message of the rejection and leaves loading; its
    own [catch] stores the message of an [Error], and the fixed
    "An unknown error occurred." for any other value. *)
Theorem C8_provider_failure ai input provider e :
  provider ai (requestFor (input ++ styleSuffix)) = Abrupt e ->
  snd (exec provider (generateMonochromeImage ai input)) =
    Abrupt (ErrorObject
              match e with
              | ErrorObject message => lit "Failed to generate image: " ++ message
              | OtherValue _ =>
                  lit "An unknown error occurred while generating the image."
              end)
  /\ (forall w,
        reachable ai w -> isGenerateDisabled (app w) = false ->
        app (step ai (step ai w ClickGenerate) (ProviderSettles 0 (Abrupt e))) =
        {| prompt := prompt (app w); generatedImage := None; isLoading := false;
           error := Some match e with
                         | ErrorObject message =>
                             lit "Failed to generate image: " ++ message
                         | OtherValue _ =>
                             lit "An unknown error occurred while generating the image."
                         end |})
  /\ (forall err w,
        error (app (run (submitCatch err) w)) =
        Some match err with
             | ErrorObject message => message
             | OtherValue _ => lit "An unknown error occurred."
             end).
Proof.
  intro Hprov. split; [|split].
  - rewrite exec_generateMonochromeImage. cbv zeta. rewrite Hprov.
    destruct e; reflexivity.
  - intros w Hr Hen. rewrite (app_after_request ai w _ Hr Hen).
    destruct e; reflexivity.
  - intros err w. destruct err; reflexivity.
Qed.

Lemma loadModule_empty_key : loadModule {| API_KEY := Some [] |} = Abrupt (ErrorObject apiKeyNotSet).
Proof. reflexivity. Qed.

(** C9. Without [API_KEY] in the environment, loading the service module
    throws "API_KEY environment variable is not set.", and the process
    does not start. With a key, the module loads, the client holds it,
    and the component mounts. The per-request function takes the client
    built at load time, not the environment: all its calls go through that
    client, it never rejects with the start-up error, and no reachable
    state of the controller shows that error. *)
Theorem C9_configuration_error :
  (forall env, API_KEY env = None ->
     loadModule env = Abrupt (ErrorObject apiKeyNotSet) /\
     start env = Abrupt (ErrorObject apiKeyNotSet))
  /\ (forall env key, API_KEY env = Some key -> key <> [] ->
        start env = Normal ({| apiKey := key |}, initialWorld))
  /\ (forall ai input provider,
        snd (exec provider (generateMonochromeImage ai input))
          <> Abrupt (ErrorObject apiKeyNotSet) /\
        callsOf (fst (exec provider (generateMonochromeImage ai input)))
          = [(ai, requestFor (input ++ styleSuffix))])
  /\ (forall ai w, reachable ai w -> error (app w) <> Some apiKeyNotSet).
Proof.
  split; [|split; [|split]].
  - intros env H. unfold start, loadModule. rewrite H. split; reflexivity.
  - intros env key H Hne. unfold start, loadModule. rewrite H.
    destruct key; [contradiction Hne; reflexivity | reflexivity].
  - intros ai input provider. split.
    + rewrite exec_generateMonochromeImage. cbv zeta. cbn [snd].
      apply serviceOutcome_not_apiKeyNotSet.
    + apply calls_generateMonochromeImage.
  - intros ai w Hr. apply (reachable_singleFlight ai w Hr).
Qed.

(* ================================================================== *)
(** * The controller (claims C4, C5, C6, C10) *)

Lemma exec_handleSubmit ai st provider :
  falsy (trim (prompt st)) = false ->
  exists rest,
    exec provider (handleSubmit ai st) =
    (Performed (SetIsLoading true) :: Performed (SetError None) ::
     Performed (SetGeneratedImage None) ::
     Called ai (requestFor (prompt st ++ styleSuffix)) :: rest, Normal tt)
    /\ callsOf rest = [].
Proof.
  unfold handleSubmit, generateMonochromeImage. intros ->. task_step.
  destruct (provider ai (requestFor (prompt st ++ styleSuffix))) as [r | [m | v]];
    task_step.
  - rewrite forParts_firstInlineData.
    destruct (firstInlineData (responseParts r)); task_step;
      eexists; split; reflexivity.
  - eexists; split; reflexivity.
  - eexists; split; reflexivity.
Qed.

Lemma clicks_while_loading ai w n :
  isLoading (app w) = true -> steps ai w (repeat ClickGenerate n) = w.
Proof.
  intro L. unfold steps. induction n as [|n IH]; cbn [repeat fold_left]; [reflexivity|].
  cbn [step]. unfold isGenerateDisabled. rewrite L, orb_true_r. exact IH.
Qed.

(** C4. In every reachable state at most one provider call is pending, and
    one is pending exactly while the loading flag is up. While loading the
    generate button is disabled: a click changes nothing and calls nobody.
    From a state where the button is enabled, any number of clicks in a
    row issues exactly one call and leaves exactly one pending. *)
Theorem C4_single_flight ai w :
  reachable ai w ->
  (List.length (inflight w) <= 1)%nat
  /\ (inflight w <> [] <-> isLoading (app w) = true)
  /\ (isLoading (app w) = true ->
      isGenerateDisabled (app w) = true /\ step ai w ClickGenerate = w)
  /\ (isGenerateDisabled (app w) = false -> forall n,
        calls (steps ai w (repeat ClickGenerate (S n))) =
          calls w ++ [(ai, requestFor (prompt (app w) ++ styleSuffix))]
        /\ List.length (inflight (steps ai w (repeat ClickGenerate (S n)))) = 1%nat).
Proof.
  intro Hr. pose proof (reachable_singleFlight ai w Hr) as [Inv _].
  split; [|split; [|split]].
  - destruct (isLoading (app w)).
    + destruct Inv as (_ & _ & _ & p & -> & _). cbn. lia.
    + rewrite Inv. cbn. lia.
  - destruct (isLoading (app w)).
    + destruct Inv as (_ & _ & _ & p & -> & _). split; [reflexivity | discriminate].
    + rewrite Inv. split; [intro H; contradiction H; reflexivity | discriminate].
  - intro L. unfold isGenerateDisabled. cbn [step]. unfold isGenerateDisabled.
    rewrite L, orb_true_r. split; reflexivity.
  - intros Hen n. cbn [repeat]. unfold steps. cbn [fold_left].
    fold (steps ai (step ai w ClickGenerate) (repeat ClickGenerate n)).
    rewrite clicks_while_loading.
    + rewrite (click_enabled ai w Hr Hen). split; reflexivity.
    + rewrite (click_enabled ai w Hr Hen). reflexivity.
Qed.

(** The single flight rests on the disabled button alone: [handleSubmit]
    does not look at the loading flag. *)
Remark handleSubmit_ignores_isLoading ai w :
  falsy (trim (prompt (app w))) = false ->
  calls (run (handleSubmit ai (app w)) w) =
  calls w ++ [(ai, requestFor (prompt (app w) ++ styleSuffix))].
Proof. intro B. rewrite run_handleSubmit by exact B. reflexivity. Qed.

(** C5. A submit with a prompt that is not blank raises the loading flag,
    clears the error and clears the image, in this order, and only then
    calls the provider; the state it leaves is loading, without error and
    without image. Every reachable loading state is without error and
    without image. *)
Theorem C5_clear_then_load ai :
  (forall st provider,
      falsy (trim (prompt st)) = false ->
      exists rest,
        fst (exec provider (handleSubmit ai st)) =
        Performed (SetIsLoading true) :: Performed (SetError None) ::
        Performed (SetGeneratedImage None) ::
        Called ai (requestFor (prompt st ++ styleSuffix)) :: rest)
  /\ (forall w,
        falsy (trim (prompt (app w))) = false ->
        app (run (handleSubmit ai (app w)) w) =
        {| prompt := prompt (app w); generatedImage := None;
           isLoading := true; error := None |})
  /\ (forall w,
        reachable ai w -> isLoading (app w) = true ->
        error (app w) = None /\ generatedImage (app w) = None).
Proof.
  split; [|split].
  - intros st provider B.
    destruct (exec_handleSubmit ai st provider B) as (rest & -> & _).
    exists rest. reflexivity.
  - intros w B. rewrite run_handleSubmit by exact B. reflexivity.
  - intros w Hr L. destruct (reachable_singleFlight ai w Hr) as [Inv _].
    rewrite L in Inv. destruct Inv as (He & Hg & _). split; assumption.
Qed.

Lemma blank_falsy (p : jsstring) : trim p = [] -> falsy (trim p) = true.
Proof. intros ->. reflexivity. Qed.

(** C6. When the prompt is blank (empty, or white space only: empty once
    trimmed), [handleSubmit] calls nobody, sets the error to
    "Please enter a prompt." and leaves the prompt, the image, the loading
    flag, the pending calls and the outputs as they were. *)
Theorem C6_blank_prompt ai w :
  isBlank (prompt (app w)) ->
  trim (prompt (app w)) = []
  /\ (forall provider,
        exec provider (handleSubmit ai (app w)) =
        ([Performed (SetError (Some promptRequired))], Normal tt))
  /\ run (handleSubmit ai (app w)) w =
     {| app := {| prompt := prompt (app w);
                  generatedImage := generatedImage (app w);
                  isLoading := isLoading (app w);
                  error := Some promptRequired |};
        inflight := inflight w; calls := calls w; outputs := outputs w |}.
Proof.
  intro B. apply trim_nil_iff in B. split; [exact B|].
  rewrite (handleSubmit_blank ai (app w) (blank_falsy _ B)).
  split; [intro provider|]; reflexivity.
Qed.

(** Through the button the blank branch of [handleSubmit] is not reached:
    the button is disabled while the prompt is blank. *)
Remark click_on_blank_prompt_ignored ai w :
  trim (prompt (app w)) = [] -> step ai w ClickGenerate = w.
Proof.
  intro B. cbn [step]. unfold isGenerateDisabled.
  rewrite (blank_falsy _ B). reflexivity.
Qed.

(** C10. A submit with a prompt that is not blank hands the prompt as
    typed, leading and trailing white space included, to the service: the
    one call sends the untrimmed prompt followed by the style suffix, which
    differs from what the trimmed prompt would give whenever trimming
    changes the prompt. The validation, the disabling of the button and
    the download name depend on the prompt through its trimmed form. *)
Theorem C10_untrimmed_prompt ai st :
  falsy (trim (prompt st)) = false ->
  (forall provider,
      callsOf (fst (exec provider (handleSubmit ai st))) =
      [(ai, requestFor (prompt st ++ styleSuffix))])
  /\ (trim (prompt st) <> prompt st ->
      requestFor (prompt st ++ styleSuffix) <> requestFor (trim (prompt st) ++ styleSuffix))
  /\ (forall st',
        trim (prompt st') = trim (prompt st) ->
        filename (prompt st') = filename (prompt st) /\
        (isLoading st' = isLoading st ->
         isGenerateDisabled st' = isGenerateDisabled st))
  /\ (forall w, app w = st ->
        calls (run (handleSubmit ai (app w)) w) =
        calls w ++ [(ai, requestFor (prompt st ++ styleSuffix))]).
Proof.
  intro B. split; [|split; [|split]].
  - intro provider.
    destruct (exec_handleSubmit ai st provider B) as (rest & -> & Hrest).
    cbn [fst callsOf]. rewrite Hrest. reflexivity.
  - intros Hne Heq. apply Hne. unfold requestFor in Heq.
    injection Heq as Heq. apply app_inv_tail in Heq. symmetry. exact Heq.
  - intros st' Ht. unfold filename, isGenerateDisabled. rewrite Ht.
    split; [reflexivity|]. intros ->. reflexivity.
  - intros w Hw. subst st. apply handleSubmit_ignores_isLoading. exact B.
Qed.

(* ================================================================== *)
(** * Further properties: the shape of the reachable states *)

Lemma dataUri_truthy (d : jsstring) : falsy (dataUriPrefix ++ d) = false.
Proof. reflexivity. Qed.

Lemma Forall_snoc {A : Type} (P : A -> Prop) (l : list A) (x : A) :
  Forall P l -> P x -> Forall P (l ++ [x]).
Proof. intros Hl Hx. apply Forall_app. split; [exact Hl | repeat constructor; exact Hx]. Qed.

Lemma coherent_same ai w w' :
  coherent ai w -> w' = w -> coherent ai w'.
Proof. intros H ->. exact H. Qed.

Lemma shaped_rest ai w :
  shaped ai w -> isLoading (app w) = false ->
  inflight w = [] /\
  ((generatedImage (app w) = None /\ error (app w) = None)
   \/ (exists d, generatedImage (app w) = Some (dataUriPrefix ++ d) /\
                 error (app w) = None)
   \/ (exists m, generatedImage (app w) = None /\ error (app w) = Some m /\
                 serviceMessage m)).
Proof.
  intros [(_ & Hi & Hrest) | (L' & _)] L; [split; assumption | congruence].
Qed.

Lemma shaped_loading ai w :
  shaped ai w -> isLoading (app w) = true ->
  generatedImage (app w) = None /\ error (app w) = None /\
  exists st, falsy (trim (prompt st)) = false /\
             prompt st = prompt (app w) /\
             inflight w = [pendingSubmit ai st].
Proof.
  intros [(L' & _) | (_ & H)] L; [congruence | exact H].
Qed.

Lemma producedOutput_logs o :
  Forall producedOutput
    match o with
    | Normal r =>
        match firstInlineData (responseParts r) with
        | Some _ => []
        | None => [ConsoleError consoleLabel (ErrorObject noImageData)]
        end
    | Abrupt e => [ConsoleError consoleLabel e]
    end.
Proof.
  destruct o as [r | e]; [|repeat constructor].
  destruct (firstInlineData (responseParts r)); repeat constructor.
Qed.

Lemma coherent_step ai w ev : coherent ai w -> coherent ai (step ai w ev).
Proof.
  intros (Hs & Hc & Ho).
  assert (Hw : coherent ai w) by (split; [|split]; assumption).
  destruct ev as [v | | | i o]; cbn [step].
  - (* typing *)
    destruct (isLoading (app w)) eqn:L; [exact Hw|].
    destruct (shaped_rest ai w Hs L) as [Hi Hrest].
    task_step. split; [|split; assumption].
    left. world_step. split; [exact L|]. split; assumption.
  - (* generate *)
    destruct (isGenerateDisabled (app w)) eqn:D; [exact Hw|].
    destruct (enabled_inv _ D) as [B L].
    destruct (shaped_rest ai w Hs L) as [Hi _].
    rewrite run_handleSubmit by exact B. rewrite Hi.
    split; [|split]; world_step.
    + right. split; [reflexivity|]. split; [reflexivity|]. split; [reflexivity|].
      exists (app w). split; [exact B|]. split; reflexivity.
    + apply Forall_snoc; [exact Hc|]. exists (prompt (app w)). split; [exact B | reflexivity].
    + exact Ho.
  - (* download *)
    unfold downloadRendered, handleDownload.
    destruct (isLoading (app w)) eqn:L.
    + rewrite andb_false_r. exact Hw.
    + destruct (shaped_rest ai w Hs L) as [Hi [(Hg & He) | [(d & Hg & He) | (m & Hg & He & Hm)]]];
        rewrite Hg; cbn [falsyOpt negb andb]; rewrite ?dataUri_truthy; cbn [negb andb];
        try exact Hw.
      task_step. split; [|split]; world_step.
      * left. split; [exact L|]. split; [exact Hi|]. right. left. exists d. split; assumption.
      * exact Hc.
      * apply Forall_snoc; [exact Ho|]. cbn [producedOutput]. split.
        -- exists d. reflexivity.
        -- exists (prompt (app w)). reflexivity.
  - (* the provider settles *)
    destruct (isLoading (app w)) eqn:L.
    + destruct (shaped_loading ai w Hs L) as (Hg & He & st & B & Hp & Hi).
      rewrite Hi. destruct i as [|i]; cbn [nth_error removeNth].
      * cbn [pendingSubmit resume]. rewrite (run_resume ai st o _ B). world_step.
        rewrite Hg, He.
        split; [|split; [exact Hc | apply Forall_app; split; [exact Ho | apply producedOutput_logs]]].
        left. world_step. split; [reflexivity|]. split; [reflexivity|].
        destruct (serviceOutcome_cases o) as [(d & Hd & _) | (m & thrown & Hm & Hsm & _)].
        -- rewrite Hd. right. left. exists d. split; reflexivity.
        -- rewrite Hm. right. right. exists m. split; [reflexivity|]. split; [reflexivity | exact Hsm].
      * apply (coherent_same ai w); [exact Hw|]. destruct i; reflexivity.
    + destruct (shaped_rest ai w Hs L) as [Hi _]. rewrite Hi.
      apply (coherent_same ai w); [exact Hw|]. destruct i; reflexivity.
Qed.

Lemma reachable_coherent ai w : reachable ai w -> coherent ai w.
Proof.
  induction 1 as [|w ev _ IH].
  - split; [|split; constructor].
    left. split; [reflexivity|]. split; [reflexivity|]. left. split; reflexivity.
  - apply coherent_step. exact IH.
Qed.

Lemma world_after_request ai w o :
  reachable ai w -> isGenerateDisabled (app w) = false ->
  step ai (step ai w ClickGenerate) (ProviderSettles 0 o) =
  {| app :=
       {| prompt := prompt (app w);
          generatedImage :=
            match snd (serviceOutcome o) with
            | Normal d => Some (dataUriPrefix ++ d)
            | Abrupt _ => None
            end;
          isLoading := false;
          error :=
            match snd (serviceOutcome o) with
            | Normal _ => None
            | Abrupt (ErrorObject message) => Some message
            | Abrupt (OtherValue _) => Some unknownError
            end |};
     inflight := [];
     calls := calls w ++ [(ai, requestFor (prompt (app w) ++ styleSuffix))];
     outputs :=
       outputs w ++
       match o with
       | Normal r =>
           match firstInlineData (responseParts r) with
           | Some _ => []
           | None => [ConsoleError consoleLabel (ErrorObject noImageData)]
           end
       | Abrupt e => [ConsoleError consoleLabel e]
       end |}.
Proof.
  intros Hr Hen. rewrite (click_enabled ai w Hr Hen).
  destruct (enabled_inv _ Hen) as [B _].
  cbn [step inflight nth_error removeNth resume app calls outputs].
  rewrite (run_resume ai (app w) o _ B). reflexivity.
Qed.

(** X1. A request that succeeds: from a reachable state with the button
    enabled, a click followed by a response whose first part with inline
    data carries [d] leaves the prompt as it was, stores the image as
    "data:image/png;base64," followed by [d], ends loading, shows no
    error, logs nothing and has made one call; cutting the fixed prefix
    off the stored image gives [d] back. *)
Theorem X1_request_success ai w response pre p post blob :
  reachable ai w -> isGenerateDisabled (app w) = false ->
  responseParts response = pre ++ p :: post ->
  Forall textOnly pre -> inlineData p = Some blob ->
  step ai (step ai w ClickGenerate) (ProviderSettles 0 (Normal response)) =
  {| app := {| prompt := prompt (app w);
               generatedImage := Some (dataUriPrefix ++ data blob);
               isLoading := false; error := None |};
     inflight := [];
     calls := calls w ++ [(ai, requestFor (prompt (app w) ++ styleSuffix))];
     outputs := outputs w |}
  /\ skipn (List.length dataUriPrefix) (dataUriPrefix ++ data blob) = data blob.
Proof.
  intros Hr Hen Hparts Hpre Hp. split.
  - rewrite (world_after_request ai w _ Hr Hen). cbn [serviceOutcome].
    rewrite Hparts, (firstInlineData_first pre post p blob Hpre Hp).
    cbn [snd]. rewrite app_nil_r. reflexivity.
  - rewrite skipn_app, skipn_all, Nat.sub_diag. reflexivity.
Qed.

Lemma exec_handleSubmit_full ai st provider :
  falsy (trim (prompt st)) = false ->
  exec provider (handleSubmit ai st) =
  (Performed (SetIsLoading true) :: Performed (SetError None) ::
   Performed (SetGeneratedImage None) ::
   Called ai (requestFor (prompt st ++ styleSuffix)) ::
   fst (serviceOutcome (provider ai (requestFor (prompt st ++ styleSuffix)))) ++
   [Performed
      match snd (serviceOutcome (provider ai (requestFor (prompt st ++ styleSuffix)))) with
      | Normal d => SetGeneratedImage (Some (dataUriPrefix ++ d))
      | Abrupt (ErrorObject message) => SetError (Some message)
      | Abrupt (OtherValue _) => SetError (Some unknownError)
      end;
    Performed (SetIsLoading false)],
   Normal tt).
Proof.
  unfold handleSubmit, generateMonochromeImage. intros ->. task_step.
  destruct (provider ai (requestFor (prompt st ++ styleSuffix))) as [r | [m | v]];
    task_step; cbn [serviceOutcome fst snd List.app]; try reflexivity.
  rewrite forParts_firstInlineData.
  destruct (firstInlineData (responseParts r)); reflexivity.
Qed.

(** X2. [handleSubmit] catches everything: whatever the state and whatever
    the provider does, the handler completes normally, so no rejection
    escapes it. When the prompt is not blank its last effect is
    [setIsLoading(false)] (the [finally]), and between the call and that
    it sets either the image or the error, once. *)
Theorem X2_handleSubmit_never_rejects ai st provider :
  snd (exec provider (handleSubmit ai st)) = Normal tt
  /\ (falsy (trim (prompt st)) = false ->
      exists before ef,
        fst (exec provider (handleSubmit ai st)) =
          before ++ [Performed ef; Performed (SetIsLoading false)]
        /\ ((exists d, ef = SetGeneratedImage (Some (dataUriPrefix ++ d)))
            \/ (exists m, ef = SetError (Some m)))
        /\ callsOf before = [(ai, requestFor (prompt st ++ styleSuffix))]).
Proof.
  split.
  - destruct (falsy (trim (prompt st))) eqn:B.
    + rewrite (handleSubmit_blank ai st B). reflexivity.
    + rewrite (exec_handleSubmit_full ai st provider B). reflexivity.
  - intro B. rewrite (exec_handleSubmit_full ai st provider B). cbn [fst].
    set (o := provider ai (requestFor (prompt st ++ styleSuffix))).
    eexists (_ :: _ :: _ :: _ :: fst (serviceOutcome o)), _.
    split; [reflexivity|]. split.
    + destruct (snd (serviceOutcome o)) as [d | [m | v]]; eauto.
    + cbn [callsOf]. f_equal.
      destruct (serviceOutcome_cases o) as [(d & _ & ->) | (m & thrown & _ & _ & ->)];
        reflexivity.
Qed.

(** X3. In every reachable state an image and an error are never stored
    together, and a stored image is always "data:image/png;base64,"
    followed by data of the provider: it is never the empty string, so
    the [!generatedImage] guard of [handleDownload] only ever sees
    [null]. *)
Theorem X3_image_xor_error ai w :
  reachable ai w ->
  (generatedImage (app w) = None \/ error (app w) = None)
  /\ (forall image, generatedImage (app w) = Some image ->
        (exists d, image = dataUriPrefix ++ d) /\ falsy image = false).
Proof.
  intro Hr. destruct (reachable_coherent ai w Hr) as (Hs & _ & _).
  destruct Hs as [(_ & _ & [(Hg & He) | [(d & Hg & He) | (m & Hg & He & _)]])
                 | (_ & Hg & He & _)];
    (split; [auto|]); intros image Hi; rewrite Hg in Hi; try discriminate Hi.
  apply Some_inj in Hi. subst image. split; [exists d; reflexivity | reflexivity].
Qed.

Lemma promptRequired_not_service : ~ serviceMessage promptRequired.
Proof.
  intros [(detail & H) | H]; vm_compute in H; discriminate H.
Qed.

Lemma unknownError_not_service : ~ serviceMessage unknownError.
Proof.
  intros [(detail & H) | H]; vm_compute in H; discriminate H.
Qed.

Lemma serviceMessage_truthy m : serviceMessage m -> falsy m = false.
Proof. intros [(detail & ->) | ->]; reflexivity. Qed.

(** X4. Every error a reachable state stores is a message of the service:
    "Failed to generate image: " followed by a detail, or the service's
    "An unknown error occurred while generating the image.". It is never
    empty. Through the user interface the validation message
    "Please enter a prompt." and the controller's own fallback
    "An unknown error occurred." are never stored: the button is disabled
    for a blank prompt, and the service only rejects with [Error]s. *)
Theorem X4_errors_are_service_messages ai w m :
  reachable ai w -> error (app w) = Some m ->
  ((exists detail, m = failedPrefix ++ detail) \/ m = unknownServiceError)
  /\ falsy m = false
  /\ m <> promptRequired /\ m <> unknownError.
Proof.
  intros Hr He. destruct (reachable_coherent ai w Hr) as (Hs & _ & _).
  assert (Hm : serviceMessage m).
  { destruct Hs as [(_ & _ & [(_ & He') | [(d & _ & He') | (m' & _ & He' & Hm)]])
                   | (_ & _ & He' & _)];
      rewrite He' in He; try discriminate He.
    apply Some_inj in He. subst m'. exact Hm. }
  split; [exact Hm|]. split; [apply serviceMessage_truthy; exact Hm|].
  split; intros ->.
  - exact (promptRequired_not_service Hm).
  - exact (unknownError_not_service Hm).
Qed.

(** X5. No terminal state and no cache: once the provider has settled a
    request, however it settled, nothing is pending, the prompt is the
    one submitted and the generate button is enabled again; a further
    click issues a second call with the same request. *)
Theorem X5_resubmit_after_settle ai w o :
  reachable ai w -> isGenerateDisabled (app w) = false ->
  inflight (step ai (step ai w ClickGenerate) (ProviderSettles 0 o)) = []
  /\ prompt (app (step ai (step ai w ClickGenerate) (ProviderSettles 0 o))) = prompt (app w)
  /\ isGenerateDisabled (app (step ai (step ai w ClickGenerate) (ProviderSettles 0 o))) = false
  /\ calls (step ai (step ai (step ai w ClickGenerate) (ProviderSettles 0 o)) ClickGenerate) =
     calls w ++ [(ai, requestFor (prompt (app w) ++ styleSuffix));
                 (ai, requestFor (prompt (app w) ++ styleSuffix))].
Proof.
  intros Hr Hen.
  assert (Hr2 : reachable ai (step ai (step ai w ClickGenerate) (ProviderSettles 0 o)))
    by (repeat apply reachable_step; exact Hr).
  destruct (enabled_inv _ Hen) as [B _].
  assert (Hen2 : isGenerateDisabled
                   (app (step ai (step ai w ClickGenerate) (ProviderSettles 0 o))) = false).
  { rewrite (world_after_request ai w o Hr Hen). unfold isGenerateDisabled.
    world_step. rewrite B. reflexivity. }
  split; [|split; [|split]].
  - rewrite (world_after_request ai w o Hr Hen). reflexivity.
  - rewrite (world_after_request ai w o Hr Hen). reflexivity.
  - exact Hen2.
  - rewrite (click_enabled ai _ Hr2 Hen2). world_step.
    rewrite (world_after_request ai w o Hr Hen). world_step.
    rewrite <- app_assoc. reflexivity.
Qed.

(** X6. The controller never sends a blank prompt: every call recorded in
    a reachable state went to the client of the service module and carries
    one text part, a prompt that is not blank followed by the style
    suffix, with the fixed model and the image modality. *)
Theorem X6_calls_carry_nonblank_prompts ai w c :
  reachable ai w -> In c (calls w) ->
  exists p,
    trim p <> [] /\
    c = (ai, {| model := lit "gemini-2.5-flash-image";
                contents := {| parts := Some [ {| text := Some (p ++ styleSuffix);
                                                   inlineData := None |} ] |};
                config := {| responseModalities := [IMAGE] |} |}).
Proof.
  intros Hr Hin. destruct (reachable_coherent ai w Hr) as (_ & Hc & _).
  rewrite Forall_forall in Hc. destruct (Hc c Hin) as (p & B & ->).
  exists p. split; [|reflexivity].
  intro H. rewrite H in B. discriminate B.
Qed.

(* ================================================================== *)
(** * Further properties: downloads and file names *)

(** X7. A click on the download button never changes the state cells,
    the pending calls or the calls made: it is local. Where the button is
    not rendered nothing happens at all; where it is, exactly one link is
    clicked, whose target is the stored data URI and whose name is made
    from the prompt on display. *)
Theorem X7_download_is_local ai w :
  reachable ai w ->
  app (step ai w ClickDownload) = app w
  /\ inflight (step ai w ClickDownload) = inflight w
  /\ calls (step ai w ClickDownload) = calls w
  /\ (downloadRendered (app w) = false -> step ai w ClickDownload = w)
  /\ (downloadRendered (app w) = true ->
      exists d,
        generatedImage (app w) = Some (dataUriPrefix ++ d) /\
        outputs (step ai w ClickDownload) =
        outputs w ++ [ClickLink (dataUriPrefix ++ d)
                                (filename (prompt (app w)) ++ lit ".png")]).
Proof.
  intro Hr. destruct (reachable_coherent ai w Hr) as (Hs & _ & _).
  cbn [step]. destruct (downloadRendered (app w)) eqn:D.
  - unfold downloadRendered in D. apply andb_true_iff in D. destruct D as [Hi L].
    apply negb_true_iff in L. apply negb_true_iff in Hi.
    destruct (shaped_rest ai w Hs L) as [_ [(Hg & _) | [(d & Hg & _) | (m & Hg & _)]]];
      rewrite Hg in Hi; try discriminate Hi.
    unfold handleDownload, downloadName. rewrite Hg, dataUri_truthy. task_step. world_step.
    split; [reflexivity|]. split; [reflexivity|]. split; [reflexivity|].
    split; [discriminate|]. intros _. exists d. split; reflexivity.
  - split; [reflexivity|]. split; [reflexivity|]. split; [reflexivity|].
    split; [reflexivity | discriminate].
Qed.

Lemma filename_nonempty (p : jsstring) : filename p <> [].
Proof.
  unfold filename, orElse.
  destruct (substring0 50 (replaceNonWordRuns (toLowerCase (trim p)))) eqn:E;
    cbn [falsy]; discriminate.
Qed.

(** X8. Every file the program has saved, in any reachable state, has a
    data URI as its content and a safe name: a stem of 1 to 50 units, all
    of them in [[a-z0-9_]], followed by ".png". *)
Theorem X8_saved_files_are_safe ai w href name :
  reachable ai w -> In (ClickLink href name) (outputs w) ->
  (exists d, href = dataUriPrefix ++ d)
  /\ exists stem,
       name = stem ++ lit ".png" /\
       (1 <= List.length stem <= 50)%nat /\
       Forall (fun c => isWordUnit c = true) stem.
Proof.
  intros Hr Hin. destruct (reachable_coherent ai w Hr) as (_ & _ & Ho).
  rewrite Forall_forall in Ho. destruct (Ho _ Hin) as [Hd (p & ->)].
  split; [exact Hd|]. exists (filename p). split; [reflexivity|].
  split; [|apply filename_word].
  split; [|apply filename_length].
  pose proof (filename_nonempty p). destruct (filename p); [congruence | cbn; lia].
Qed.

Lemma isWhiteSpace_range c : isWhiteSpace c = true -> c <= 32 \/ c = 160 \/ 5760 <= c.
Proof. unfold isWhiteSpace. intro H. boolify. lia. Qed.

Lemma isWordUnit_range c : isWordUnit c = true -> 48 <= c <= 122 /\ ~ (65 <= c <= 90).
Proof. unfold isWordUnit, underscore. intro H. boolify. lia. Qed.

Lemma word_not_space c : isWordUnit c = true -> isWhiteSpace c = false.
Proof.
  intro H. apply isWordUnit_range in H.
  destruct (isWhiteSpace c) eqn:E; [|reflexivity].
  apply isWhiteSpace_range in E. lia.
Qed.

Lemma asciiLower_cases c :
  (asciiLower c = c + 32 /\ 65 <= c <= 90) \/ (asciiLower c = c /\ ~ (65 <= c <= 90)).
Proof.
  unfold asciiLower. destruct ((65 <=? c) && (c <=? 90)) eqn:E.
  - left. split; [reflexivity|]. boolify. lia.
  - right. split; [reflexivity|]. boolify. lia.
Qed.

Lemma word_lower c : isWordUnit c = true -> asciiLower c = c.
Proof.
  intro H. apply isWordUnit_range in H.
  destruct (asciiLower_cases c) as [(_ & Hc) | (E & _)]; [lia | exact E].
Qed.

Lemma lower_space c : isWhiteSpace (asciiLower c) = isWhiteSpace c.
Proof.
  destruct (asciiLower_cases c) as [(E & Hc) | (E & _)]; rewrite E; [|reflexivity].
  destruct (isWhiteSpace (c + 32)) eqn:E1; destruct (isWhiteSpace c) eqn:E2;
    try reflexivity;
    try (apply isWhiteSpace_range in E1); try (apply isWhiteSpace_range in E2); lia.
Qed.

Lemma asciiLower_ascii c : c < 128 -> asciiLower c < 128.
Proof.
  intro H. destruct (asciiLower_cases c) as [(E & Hc) | (E & _)]; rewrite E; lia.
Qed.

Lemma trimStart_head_fixed (s : jsstring) :
  match s with [] => True | c :: _ => isWhiteSpace c = false end -> trimStart s = s.
Proof. destruct s as [|c s]; cbn [trimStart]; [reflexivity | intros ->; reflexivity]. Qed.

Lemma trimEnd_head (s : jsstring) :
  match s with [] => True | c :: _ => isWhiteSpace c = false end ->
  match trimEnd s with [] => True | c :: _ => isWhiteSpace c = false end.
Proof.
  destruct s as [|c s]; cbn [trimEnd]; [auto|]. intro Hc.
  destruct (trimEnd s); [rewrite Hc|]; exact Hc.
Qed.

Lemma trimEnd_idempotent (s : jsstring) : trimEnd (trimEnd s) = trimEnd s.
Proof.
  induction s as [|c s IH]; cbn [trimEnd]; [reflexivity|].
  destruct (trimEnd s) as [|d t] eqn:E.
  - destruct (isWhiteSpace c) eqn:Ec; cbn [trimEnd]; [reflexivity|].
    rewrite Ec. reflexivity.
  - change (trimEnd (c :: d :: t)) with
      (match trimEnd (d :: t) with
       | [] => if isWhiteSpace c then [] else [c]
       | x :: l => c :: x :: l
       end).
    rewrite IH. reflexivity.
Qed.

Lemma trim_idempotent (s : jsstring) : trim (trim s) = trim s.
Proof.
  unfold trim.
  rewrite (trimStart_head_fixed (trimEnd (trimStart s))).
  - apply trimEnd_idempotent.
  - apply trimEnd_head, trimStart_head.
Qed.

Lemma trimStart_asciiLower (s : jsstring) :
  trimStart (List.map asciiLower s) = List.map asciiLower (trimStart s).
Proof.
  induction s as [|c s IH]; cbn [map trimStart]; [reflexivity|].
  rewrite lower_space. destruct (isWhiteSpace c); [exact IH | reflexivity].
Qed.

Lemma trimEnd_asciiLower (s : jsstring) :
  trimEnd (List.map asciiLower s) = List.map asciiLower (trimEnd s).
Proof.
  induction s as [|c s IH]; cbn [map trimEnd]; [reflexivity|].
  rewrite IH, lower_space.
  destruct (trimEnd s); cbn [map]; [destruct (isWhiteSpace c)|]; reflexivity.
Qed.

Lemma trim_asciiLower (s : jsstring) :
  trim (List.map asciiLower s) = List.map asciiLower (trim s).
Proof. unfold trim. rewrite trimStart_asciiLower, trimEnd_asciiLower. reflexivity. Qed.

Lemma trimStart_Forall (P : N -> Prop) (s : jsstring) :
  Forall P s -> Forall P (trimStart s).
Proof.
  induction 1 as [|c s Hc Hs IH]; cbn [trimStart]; [constructor|].
  destruct (isWhiteSpace c); [exact IH | constructor; assumption].
Qed.

Lemma trimEnd_Forall (P : N -> Prop) (s : jsstring) :
  Forall P s -> Forall P (trimEnd s).
Proof.
  induction 1 as [|c s Hc Hs IH]; cbn [trimEnd]; [constructor|].
  destruct (trimEnd s).
  - destruct (isWhiteSpace c); repeat constructor. exact Hc.
  - constructor; assumption.
Qed.

Lemma trim_ascii (s : jsstring) : isAscii s -> isAscii (trim s).
Proof. intro H. apply trimEnd_Forall, trimStart_Forall. exact H. Qed.

Lemma trimEnd_fixed (s : jsstring) :
  Forall (fun c => isWhiteSpace c = false) s -> trimEnd s = s.
Proof.
  induction 1 as [|c s Hc _ IH]; cbn [trimEnd]; [reflexivity|].
  rewrite IH. destruct s; [rewrite Hc|]; reflexivity.
Qed.

Lemma word_string_fixed (s : jsstring) :
  Forall (fun c => isWordUnit c = true) s ->
  trim s = s /\ toLowerCase s = s /\ replaceNonWordRuns s = s.
Proof.
  intro H. split; [|split].
  - unfold trim. rewrite trimStart_head_fixed.
    + apply trimEnd_fixed. eapply Forall_impl; [|exact H].
      intros c Hc. apply word_not_space. exact Hc.
    + destruct H as [|c s Hc _]; [exact I | apply word_not_space; exact Hc].
  - rewrite toLowerCase_ascii.
    + induction H as [|c s Hc _ IH]; cbn [map]; [reflexivity|].
      rewrite IH, (word_lower c Hc). reflexivity.
    + eapply Forall_impl; [|exact H].
      intros c Hc. apply isWordUnit_range in Hc. lia.
  - unfold replaceNonWordRuns. induction H as [|c s Hc _ IH]; cbn [replaceFrom]; [reflexivity|].
    rewrite Hc, IH. reflexivity.
Qed.

(** X9. The download name is a fixed point of the sanitising, is never
    empty, and is cut exactly: the name made from a name is that name, and
    a sanitised prompt of 50 units or more gives a name of exactly 50. *)
Theorem X9_filename_stable (p : jsstring) :
  filename (filename p) = filename p
  /\ filename p <> []
  /\ ((50 <= List.length (replaceNonWordRuns (toLowerCase (trim p))))%nat ->
      List.length (filename p) = 50%nat).
Proof.
  split; [|split; [apply filename_nonempty|]].
  - destruct (word_string_fixed (filename p) (filename_word p)) as (Ht & Hl & Hr).
    unfold filename at 1. rewrite Ht, Hl, Hr.
    unfold substring0. rewrite firstn_all2 by apply filename_length.
    unfold orElse. pose proof (filename_nonempty p).
    destruct (filename p); [congruence | reflexivity].
  - intro Hlen. unfold filename, orElse, substring0.
    destruct (firstn 50 (replaceNonWordRuns (toLowerCase (trim p)))) eqn:E.
    + apply (f_equal (@List.length N)) in E. rewrite length_firstn in E.
      cbn [List.length] in E. lia.
    + cbn [falsy]. rewrite <- E, length_firstn. lia.
Qed.

(** X10. The download name does not see white space around the prompt,
    nor, for prompts of ASCII characters, the case of their letters: the
    trimmed prompt gives the name of the prompt, and two ASCII prompts that
    agree once A-Z is lowered give the same name. *)
Theorem X10_filename_ignores_case_and_margins (p q : jsstring) :
  filename (trim p) = filename p
  /\ (isAscii p -> isAscii q ->
      List.map asciiLower p = List.map asciiLower q ->
      filename p = filename q).
Proof.
  split.
  - unfold filename. rewrite trim_idempotent. reflexivity.
  - intros Hp Hq E.
    rewrite (filename_ascii p (trim_ascii p Hp)), (filename_ascii q (trim_ascii q Hq)).
    rewrite <- !trim_asciiLower, E. reflexivity.
Qed.

(* ================================================================== *)
(** * Further properties: the service module *)

(** X11. Loading the service module has two outcomes. It yields a client
    exactly when [API_KEY] is set to a non-empty string, and the client
    then holds that string; otherwise, for a missing key and for an empty
    one alike, it throws "API_KEY environment variable is not set.". *)
Theorem X11_loadModule_outcomes (env : ProcessEnv) :
  match loadModule env with
  | Normal ai => API_KEY env = Some (apiKey ai) /\ apiKey ai <> []
  | Abrupt e =>
      e = ErrorObject apiKeyNotSet /\
      (API_KEY env = None \/ API_KEY env = Some [])
  end.
Proof.
  unfold loadModule. destruct (API_KEY env) as [[|c key]|]; cbn [falsyOpt falsy].
  - split; [reflexivity | right; reflexivity].
  - split; [reflexivity | discriminate].
  - split; [reflexivity | left; reflexivity].
Qed.

Lemma responseParts_textOnly_outcome ai input provider response :
  provider ai (requestFor (input ++ styleSuffix)) = Normal response ->
  Forall textOnly (responseParts response) ->
  snd (exec provider (generateMonochromeImage ai input)) =
  Abrupt (ErrorObject (failedPrefix ++ noImageData)).
Proof.
  intros Hprov Htext. rewrite exec_generateMonochromeImage. cbv zeta. rewrite Hprov.
  cbn [serviceOutcome]. rewrite (firstInlineData_none _ Htext). reflexivity.
Qed.

(** X12. Responses with holes do not crash the service, and only the first
    candidate counts. A response without [candidates], with an empty list
    of them, or whose first candidate has no [content], no [parts], or
    parts without inline data, ends in the "no image data" rejection,
    whatever the later candidates hold. *)
Theorem X12_only_first_candidate ai input provider response :
  provider ai (requestFor (input ++ styleSuffix)) = Normal response ->
  (candidates response = None
   \/ candidates response = Some []
   \/ exists c cs,
        candidates response = Some (c :: cs) /\
        (content c = None
         \/ exists ct, content c = Some ct /\
              (parts ct = None \/ exists ps, parts ct = Some ps /\ Forall textOnly ps))) ->
  snd (exec provider (generateMonochromeImage ai input)) =
  Abrupt (ErrorObject (failedPrefix ++ noImageData)).
Proof.
  intros Hprov H. apply (responseParts_textOnly_outcome ai input provider response Hprov).
  unfold responseParts.
  destruct H as [-> | [-> | (c & cs & -> & [-> | (ct & -> & [-> | (ps & -> & Hps)])])]];
    try constructor.
  exact Hps.
Qed.

(** X13. The service logs exactly when it rejects, and it rejects with
    [Error]s only. On success the console stays silent. On rejection
    there is one line, labelled "Error generating image with Gemini:",
    carrying the value that was caught before wrapping: what the provider
    threw, or the "no image data" error when the provider had answered. *)
Theorem X13_logs_exactly_on_rejection ai input provider :
  match snd (exec provider (generateMonochromeImage ai input)) with
  | Normal _ => logsOf (fst (exec provider (generateMonochromeImage ai input))) = []
  | Abrupt e =>
      (exists m, e = ErrorObject m) /\
      exists thrown,
        logsOf (fst (exec provider (generateMonochromeImage ai input))) =
          [(consoleLabel, thrown)] /\
        (provider ai (requestFor (input ++ styleSuffix)) = Abrupt thrown
         \/ (thrown = ErrorObject noImageData /\
             exists r, provider ai (requestFor (input ++ styleSuffix)) = Normal r))
  end.
Proof.
  rewrite exec_generateMonochromeImage. cbv zeta. cbn [fst snd logsOf].
  destruct (provider ai (requestFor (input ++ styleSuffix))) as [r | [m | v]];
    cbn [serviceOutcome].
  - destruct (firstInlineData (responseParts r)); cbn [fst snd logsOf]; [reflexivity|].
    split; [eexists; reflexivity|]. eexists. split; [reflexivity|].
    right. split; [reflexivity|]. exists r. reflexivity.
  - cbn [fst snd logsOf]. split; [eexists; reflexivity|].
    eexists. split; [reflexivity|]. left. reflexivity.
  - cbn [fst snd logsOf]. split; [eexists; reflexivity|].
    eexists. split; [reflexivity|]. left. reflexivity.
Qed.

(* ================================================================== *)
(** * Further properties: what is on screen *)

(** X14. What a reachable state renders. Every stored error and every
    stored image is on screen (neither is ever an empty string, which the
    JSX guards would hide), and never both. Under the loading overlay
    there is no error box, no image and no download button, the textarea
    and the generate button are disabled and the button shows the
    spinner. The download button is there exactly when an image is. *)
Theorem X14_view_of_reachable_states ai w :
  reachable ai w ->
  errorBox (render (app w)) = error (app w)
  /\ img (render (app w)) = generatedImage (app w)
  /\ (errorBox (render (app w)) = None \/ img (render (app w)) = None)
  /\ (overlay (render (app w)) = true ->
      errorBox (render (app w)) = None /\ img (render (app w)) = None /\
      downloadButton (render (app w)) = false /\
      generateDisabled (render (app w)) = true /\
      textareaDisabled (render (app w)) = true /\
      generateSpinner (render (app w)) = true)
  /\ (downloadButton (render (app w)) = true <-> img (render (app w)) <> None).
Proof.
  intro Hr. destruct (reachable_coherent ai w Hr) as (Hs & _ & _).
  unfold render, whenTruthy, downloadRendered, isGenerateDisabled.
  cbn [errorBox img overlay downloadButton generateDisabled textareaDisabled
       generateSpinner].
  destruct Hs as [(L & _ & [(Hg & He) | [(d & Hg & He) | (m & Hg & He & Hm)]])
                 | (L & Hg & He & _)];
    rewrite L, Hg, He; cbn [falsyOpt negb andb];
    rewrite ?dataUri_truthy, ?(serviceMessage_truthy m Hm), ?orb_true_r;
    cbn [negb andb].
  all: repeat split; auto; try discriminate.
Qed.

(** X15. While a request is loading, the one pending call is the call for
    the prompt on display, which is not blank, and the prompt cannot be
    edited: the textarea is disabled, so typing changes nothing. *)
Theorem X15_pending_call_matches_prompt ai w :
  reachable ai w -> isLoading (app w) = true ->
  (exists k,
     inflight w = [ {| client := ai;
                       request := requestFor (prompt (app w) ++ styleSuffix);
                       resume := k |} ])
  /\ trim (prompt (app w)) <> []
  /\ forall value, step ai w (ChangePrompt value) = w.
Proof.
  intros Hr L. destruct (reachable_coherent ai w Hr) as (Hs & _ & _).
  destruct (shaped_loading ai w Hs L) as (_ & _ & st & B & Hp & Hi).
  split; [|split].
  - eexists. rewrite Hi. unfold pendingSubmit. rewrite Hp. reflexivity.
  - intro H. rewrite Hp, H in B. discriminate B.
  - intro value. cbn [step]. rewrite L. reflexivity.
Qed.

(** X16. The saved name follows the prompt on display at download time,
    not the prompt the image was generated from: with an image on
    display, editing the prompt to [value] and then downloading saves the
    same image under the name made from [value], which is the default
    "generated_image.png" when [value] is blank. *)
Theorem X16_download_uses_current_prompt ai w value :
  reachable ai w -> downloadRendered (app w) = true ->
  exists image,
    generatedImage (app w) = Some image /\
    outputs (steps ai w [ChangePrompt value; ClickDownload]) =
      outputs w ++ [ClickLink image (filename value ++ lit ".png")] /\
    (isBlank value ->
     outputs (steps ai w [ChangePrompt value; ClickDownload]) =
       outputs w ++ [ClickLink image (lit "generated_image.png")]).
Proof.
  intros Hr D. destruct (reachable_coherent ai w Hr) as (Hs & _ & _).
  pose proof D as D'.
  unfold downloadRendered in D'. apply andb_true_iff in D'. destruct D' as [Hi L].
  apply negb_true_iff in L. apply negb_true_iff in Hi.
  destruct (shaped_rest ai w Hs L) as [_ [(Hg & _) | [(d & Hg & _) | (m & Hg & _)]]];
    rewrite Hg in Hi; try discriminate Hi.
  exists (dataUriPrefix ++ d). split; [exact Hg|].
  assert (E : outputs (steps ai w [ChangePrompt value; ClickDownload]) =
              outputs w ++ [ClickLink (dataUriPrefix ++ d) (filename value ++ lit ".png")]).
  { unfold steps. cbn [fold_left step]. rewrite L. task_step. world_step.
    unfold downloadRendered, handleDownload, downloadName. world_step.
    rewrite Hg, L. cbn [falsyOpt]. rewrite dataUri_truthy. cbn [negb andb].
    task_step. world_step. reflexivity. }
  split; [exact E|].
  intro Hb. rewrite E. apply trim_nil_iff in Hb. unfold filename. rewrite Hb.
  rewrite toLowerCase_nil. reflexivity.
Qed.

End Host.

(* ================================================================== *)
(** * Closed examples *)

Lemma tableLowerUnit_ascii (c : N) : c < 128 -> tableLowerUnit c = [asciiLower c].
Proof.
  intro H. unfold tableLowerUnit, asciiLower.
  destruct ((65 <=? c) && (c <=? 90)); [reflexivity|].
  destruct ((192 <=? c) && (c <=? 222) && negb (c =? 215)) eqn:E1;
    [boolify; lia|].
  destruct (c =? 304) eqn:E2; [boolify; lia|].
  destruct (c =? 8490) eqn:E3; [boolify; lia|].
  reflexivity.
Qed.

Lemma tableLowerCase_ascii : lowersAscii tableLowerCase.
Proof.
  intros s H. unfold tableLowerCase.
  induction H as [|c s Hc _ IH]; cbn [flat_map map]; [reflexivity|].
  rewrite IH, (tableLowerUnit_ascii c Hc). reflexivity.
Qed.

Lemma tableLowerCase_nonempty : keepsNonEmpty tableLowerCase.
Proof.
  intros [|c s]; [reflexivity|]. unfold tableLowerCase. cbn [flat_map].
  unfold tableLowerUnit.
  destruct ((65 <=? c) && (c <=? 90)); [discriminate|].
  destruct ((192 <=? c) && (c <=? 222) && negb (c =? 215)); [discriminate|].
  destruct (c =? 304); [discriminate|].
  destruct (c =? 8490); discriminate.
Qed.

(** C1, as the specification states it, fails on its second example: for
    the prompt "###" the sanitised text is "_", which is not empty, so the
    image is saved as "_.png" and not under the default name
    "generated_image.png". *)
Lemma C1_symbols_only_not_default :
  handleDownload tableLowerCase
    {| prompt := lit "###"; generatedImage := Some (dataUriPrefix ++ lit "abc");
       isLoading := false; error := None |}
  = perform (ClickLink (dataUriPrefix ++ lit "abc") (lit "_.png"))
  /\ lit "_.png" <> defaultFilename ++ lit ".png".
Proof.
  split.
  - vm_compute. reflexivity.
  - intro H. vm_compute in H. discriminate H.
Qed.

(** The law of C1 at the prompt of the first example. *)
Lemma C1_download_filename_witness :
  handleDownload tableLowerCase
    {| prompt := lit "A Red Fox!! 2024";
       generatedImage := Some (dataUriPrefix ++ lit "abc");
       isLoading := false; error := None |}
  = perform (ClickLink (dataUriPrefix ++ lit "abc") (lit "a_red_fox_2024.png")).
Proof.
  refine (eq_trans
            (proj1 (C1_download_filename tableLowerCase tableLowerCase_ascii tableLowerCase_nonempty)
               {| prompt := lit "A Red Fox!! 2024";
                  generatedImage := Some (dataUriPrefix ++ lit "abc");
                  isLoading := false; error := None |}
               (dataUriPrefix ++ lit "abc") eq_refl _) _).
  - vm_compute. discriminate.
  - vm_compute. reflexivity.
Defined.

(** The default name is reached by emptying the prompt after a
    generation and then downloading. *)
Example download_after_clearing_prompt :
  outputs (steps tableLowerCase exampleClient (typed tableLowerCase (lit "a cat"))
             [ClickGenerate;
              ProviderSettles 0 (Normal (responseOf [imagePart (lit "abc")]));
              ChangePrompt [];
              ClickDownload]) =
  [ClickLink (lit "data:image/png;base64,abc") (lit "generated_image.png")].
Proof. vm_compute. reflexivity. Qed.

Lemma C2_no_image_data_witness :
  app (step tableLowerCase exampleClient (step tableLowerCase exampleClient (typed tableLowerCase (lit "a cat")) ClickGenerate)
            (ProviderSettles 0 (Normal (responseOf [textPart (lit "x")])))) =
  {| prompt := lit "a cat"; generatedImage := None; isLoading := false;
     error := Some (lit "Failed to generate image: No image data found in the API response.") |}.
Proof.
  refine (eq_trans
            (proj2 (C2_no_image_data tableLowerCase exampleClient (lit "a cat")
                      (fun _ _ => Normal (responseOf [textPart (lit "x")]))
                      (responseOf [textPart (lit "x")]) eq_refl _)
                   (typed tableLowerCase (lit "a cat")) (reachable_typed tableLowerCase _) _) _).
  - repeat constructor.
  - vm_compute. reflexivity.
  - vm_compute. reflexivity.
Defined.

(** The example of the specification: parts [text "x"; image "abc"] give
    "abc". *)
Lemma C3_first_image_part_witness :
  exec (fun _ _ => Normal (responseOf [textPart (lit "x"); imagePart (lit "abc")]))
       (generateMonochromeImage exampleClient (lit "a cat")) =
  ([Called exampleClient (requestFor (lit "a cat" ++ styleSuffix))], Normal (lit "abc")).
Proof.
  apply (C3_first_image_part exampleClient (lit "a cat") _
           (responseOf [textPart (lit "x"); imagePart (lit "abc")])
           [textPart (lit "x")] (imagePart (lit "abc")) []
           {| mimeType := Some (lit "image/png"); data := lit "abc" |}).
  - reflexivity.
  - reflexivity.
  - repeat constructor.
  - reflexivity.
Defined.

(** A double click on the generate button of a freshly typed prompt: one
    call. *)
Lemma C4_single_flight_witness :
  calls (steps tableLowerCase exampleClient (typed tableLowerCase (lit "a cat")) [ClickGenerate; ClickGenerate]) =
    [(exampleClient, requestFor (lit "a cat" ++ styleSuffix))]
  /\ List.length (inflight (steps tableLowerCase exampleClient (typed tableLowerCase (lit "a cat"))
                                  [ClickGenerate; ClickGenerate])) = 1%nat.
Proof.
  refine (proj2 (proj2 (proj2
            (C4_single_flight tableLowerCase exampleClient (typed tableLowerCase (lit "a cat")) (reachable_typed tableLowerCase _))))
            _ 1%nat).
  vm_compute. reflexivity.
Defined.

(** A new submission after a success: while it loads, the earlier image
    and error are gone. *)
Lemma C5_clear_then_load_witness :
  error (app (steps tableLowerCase exampleClient (typed tableLowerCase (lit "a cat"))
                [ClickGenerate;
                 ProviderSettles 0 (Normal (responseOf [imagePart (lit "abc")]));
                 ClickGenerate])) = None
  /\ generatedImage (app (steps tableLowerCase exampleClient (typed tableLowerCase (lit "a cat"))
                [ClickGenerate;
                 ProviderSettles 0 (Normal (responseOf [imagePart (lit "abc")]));
                 ClickGenerate])) = None.
Proof.
  apply (proj2 (proj2 (C5_clear_then_load tableLowerCase exampleClient))).
  - unfold steps. cbn [fold_left]. repeat apply reachable_step. apply reachable_typed.
  - vm_compute. reflexivity.
Defined.

(** [handleSubmit] on a prompt of three spaces, with an image on display. *)
Lemma C6_blank_prompt_witness :
  run (handleSubmit exampleClient
         {| prompt := lit "   "; generatedImage := Some (dataUriPrefix ++ lit "abc");
            isLoading := false; error := None |})
      {| app := {| prompt := lit "   "; generatedImage := Some (dataUriPrefix ++ lit "abc");
                   isLoading := false; error := None |};
         inflight := []; calls := []; outputs := [] |}
  = {| app := {| prompt := lit "   "; generatedImage := Some (dataUriPrefix ++ lit "abc");
                 isLoading := false; error := Some promptRequired |};
       inflight := []; calls := []; outputs := [] |}.
Proof.
  refine (proj2 (proj2
            (C6_blank_prompt exampleClient
               {| app := {| prompt := lit "   ";
                            generatedImage := Some (dataUriPrefix ++ lit "abc");
                            isLoading := false; error := None |};
                  inflight := []; calls := []; outputs := [] |} _))).
  repeat constructor.
Defined.

(** The text sent for the prompt "a cat". *)
Lemma C7_style_suffix_once_witness :
  callsOf (fst (exec (fun _ _ => Abrupt (OtherValue []))
                     (generateMonochromeImage exampleClient (lit "a cat")))) =
  [(exampleClient,
    {| model := lit "gemini-2.5-flash-image";
       contents :=
         {| parts :=
              Some [ {| text :=
                          Some (lit "a cat, promptu sadece arkaplan siyah olacak " ++ [351] ++
                                lit "ekilde sadece beyaz renk kullanarak " ++ [231] ++
                                lit "izecek");
                        inlineData := None |} ] |};
       config := {| responseModalities := [IMAGE] |} |})].
Proof.
  exact (proj1 (C7_style_suffix_once exampleClient (lit "a cat")
                  (fun _ _ => Abrupt (OtherValue [])))).
Defined.

(** C8, as the specification states it, fails for a failure that is not
    an [Error]: the provider rejects with the string "quota exceeded", the
    service rejects with the fixed text, in which nothing of the original
    is left, and that text is what the controller stores. *)
Lemma C8_non_error_failure_is_dropped :
  snd (exec (fun _ _ => Abrupt (OtherValue (lit "quota exceeded")))
            (generateMonochromeImage exampleClient (lit "a cat")))
  = Abrupt (ErrorObject (lit "An unknown error occurred while generating the image."))
  /\ app (step tableLowerCase exampleClient
             (step tableLowerCase exampleClient (typed tableLowerCase (lit "a cat"))
                   ClickGenerate)
             (ProviderSettles 0 (Abrupt (OtherValue (lit "quota exceeded"))))) =
     {| prompt := lit "a cat"; generatedImage := None; isLoading := false;
        error := Some (lit "An unknown error occurred while generating the image.") |}.
Proof. split; vm_compute; reflexivity. Qed.

(** An [Error] of the provider: its message is kept behind the prefix. *)
Lemma C8_provider_failure_witness :
  app (step tableLowerCase exampleClient
         (step tableLowerCase exampleClient (typed tableLowerCase (lit "a cat"))
               ClickGenerate)
         (ProviderSettles 0 (Abrupt (ErrorObject (lit "quota exceeded"))))) =
  {| prompt := lit "a cat"; generatedImage := None; isLoading := false;
     error := Some (lit "Failed to generate image: quota exceeded") |}.
Proof.
  refine (eq_trans
            (proj1 (proj2
               (C8_provider_failure tableLowerCase exampleClient (lit "a cat")
                  (fun _ _ => Abrupt (ErrorObject (lit "quota exceeded")))
                  (ErrorObject (lit "quota exceeded")) eq_refl))
               (typed tableLowerCase (lit "a cat"))
               (reachable_typed tableLowerCase _) _) _).
  - vm_compute. reflexivity.
  - vm_compute. reflexivity.
Defined.

Lemma C9_configuration_error_witness :
  start {| API_KEY := Some (lit "key") |} = Normal (exampleClient, initialWorld).
Proof.
  apply (proj1 (proj2 (C9_configuration_error tableLowerCase)) {| API_KEY := Some (lit "key") |} (lit "key")).
  - reflexivity.
  - vm_compute. discriminate.
Defined.

(** The prompt " a cat " is sent with its spaces. *)
Lemma C10_untrimmed_prompt_witness :
  calls (step tableLowerCase exampleClient (typed tableLowerCase (lit " a cat ")) ClickGenerate) =
  [(exampleClient, requestFor (lit " a cat " ++ styleSuffix))]
  /\ requestFor (lit " a cat " ++ styleSuffix) <> requestFor (lit "a cat" ++ styleSuffix).
Proof.
  split.
  - refine (proj2 (proj2 (proj2
       (C10_untrimmed_prompt tableLowerCase exampleClient (app (typed tableLowerCase (lit " a cat "))) _)))
       (typed tableLowerCase (lit " a cat ")) eq_refl).
    vm_compute. reflexivity.
  - intro H. vm_compute in H. discriminate H.
Defined.

Lemma X1_request_success_witness :
  app (step tableLowerCase exampleClient (step tableLowerCase exampleClient (typed tableLowerCase (lit "a cat")) ClickGenerate)
         (ProviderSettles 0
            (Normal (responseOf [textPart (lit "x"); imagePart (lit "abc")])))) =
  {| prompt := lit "a cat"; generatedImage := Some (lit "data:image/png;base64,abc");
     isLoading := false; error := None |}.
Proof.
  refine (eq_trans
            (f_equal app
               (proj1 (X1_request_success tableLowerCase exampleClient (typed tableLowerCase (lit "a cat"))
                         (responseOf [textPart (lit "x"); imagePart (lit "abc")])
                         [textPart (lit "x")] (imagePart (lit "abc")) []
                         {| mimeType := Some (lit "image/png"); data := lit "abc" |}
                         (reachable_typed tableLowerCase _) _ eq_refl _ eq_refl))) _).
  - vm_compute. reflexivity.
  - repeat constructor.
  - vm_compute. reflexivity.
Defined.

Lemma X2_handleSubmit_never_rejects_witness :
  exists before ef,
    fst (exec (fun _ _ => Abrupt (OtherValue (lit "offline")))
              (handleSubmit exampleClient (app (typed tableLowerCase (lit "a cat"))))) =
      before ++ [Performed ef; Performed (SetIsLoading false)]
    /\ ((exists d, ef = SetGeneratedImage (Some (dataUriPrefix ++ d)))
        \/ (exists m, ef = SetError (Some m)))
    /\ callsOf before = [(exampleClient, requestFor (lit "a cat" ++ styleSuffix))].
Proof.
  apply (proj2 (X2_handleSubmit_never_rejects exampleClient (app (typed tableLowerCase (lit "a cat")))
                  (fun _ _ => Abrupt (OtherValue (lit "offline"))))).
  vm_compute. reflexivity.
Defined.

Lemma X3_image_xor_error_witness :
  generatedImage
    (app (steps tableLowerCase exampleClient (typed tableLowerCase (lit "a cat"))
            [ClickGenerate;
             ProviderSettles 0 (Normal (responseOf [imagePart (lit "abc")]));
             ClickGenerate;
             ProviderSettles 0 (Abrupt (ErrorObject (lit "quota exceeded")))])) = None
  \/ error
    (app (steps tableLowerCase exampleClient (typed tableLowerCase (lit "a cat"))
            [ClickGenerate;
             ProviderSettles 0 (Normal (responseOf [imagePart (lit "abc")]));
             ClickGenerate;
             ProviderSettles 0 (Abrupt (ErrorObject (lit "quota exceeded")))])) = None.
Proof.
  apply (proj1 (X3_image_xor_error tableLowerCase exampleClient _
     (reachable_step _ _ _ _ (reachable_step _ _ _ _ (reachable_step _ _ _ _
        (reachable_step _ _ _ _ (reachable_typed tableLowerCase (lit "a cat")))))))).
Defined.

Lemma X4_errors_are_service_messages_witness :
  ((exists detail, lit "Failed to generate image: quota exceeded" = failedPrefix ++ detail)
   \/ lit "Failed to generate image: quota exceeded" = unknownServiceError)
  /\ falsy (lit "Failed to generate image: quota exceeded") = false
  /\ lit "Failed to generate image: quota exceeded" <> promptRequired
  /\ lit "Failed to generate image: quota exceeded" <> unknownError.
Proof.
  apply (X4_errors_are_service_messages tableLowerCase exampleClient
           (steps tableLowerCase exampleClient (typed tableLowerCase (lit "a cat"))
              [ClickGenerate;
               ProviderSettles 0 (Abrupt (ErrorObject (lit "quota exceeded")))])).
  - unfold steps. cbn [fold_left]. repeat apply reachable_step. apply reachable_typed.
  - vm_compute. reflexivity.
Defined.

Lemma X5_resubmit_after_settle_witness :
  calls (steps tableLowerCase exampleClient (typed tableLowerCase (lit "a cat"))
           [ClickGenerate;
            ProviderSettles 0 (Normal (responseOf [imagePart (lit "abc")]));
            ClickGenerate]) =
  [(exampleClient, requestFor (lit "a cat" ++ styleSuffix));
   (exampleClient, requestFor (lit "a cat" ++ styleSuffix))].
Proof.
  refine (proj2 (proj2 (proj2
            (X5_resubmit_after_settle tableLowerCase exampleClient (typed tableLowerCase (lit "a cat"))
               (Normal (responseOf [imagePart (lit "abc")]))
               (reachable_typed tableLowerCase _) _)))).
  vm_compute. reflexivity.
Defined.

Lemma X6_calls_carry_nonblank_prompts_witness :
  exists p,
    trim p <> [] /\
    (exampleClient, requestFor (lit " a cat " ++ styleSuffix)) =
    (exampleClient,
     {| model := lit "gemini-2.5-flash-image";
        contents := {| parts := Some [ {| text := Some (p ++ styleSuffix);
                                           inlineData := None |} ] |};
        config := {| responseModalities := [IMAGE] |} |}).
Proof.
  apply (X6_calls_carry_nonblank_prompts tableLowerCase exampleClient
           (step tableLowerCase exampleClient (typed tableLowerCase (lit " a cat ")) ClickGenerate)).
  - apply reachable_step, reachable_typed.
  - vm_compute. left. reflexivity.
Defined.

Lemma X7_download_is_local_witness :
  exists d,
    generatedImage
      (app (steps tableLowerCase exampleClient (typed tableLowerCase (lit "A Red Fox!! 2024"))
              [ClickGenerate;
               ProviderSettles 0 (Normal (responseOf [imagePart (lit "abc")]))])) =
    Some (dataUriPrefix ++ d) /\
    outputs (step tableLowerCase exampleClient
               (steps tableLowerCase exampleClient (typed tableLowerCase (lit "A Red Fox!! 2024"))
                  [ClickGenerate;
                   ProviderSettles 0 (Normal (responseOf [imagePart (lit "abc")]))])
               ClickDownload) =
    [] ++ [ClickLink (dataUriPrefix ++ d) (lit "a_red_fox_2024" ++ lit ".png")].
Proof.
  refine (proj2 (proj2 (proj2 (proj2
            (X7_download_is_local tableLowerCase exampleClient
               (steps tableLowerCase exampleClient (typed tableLowerCase (lit "A Red Fox!! 2024"))
                  [ClickGenerate;
                   ProviderSettles 0 (Normal (responseOf [imagePart (lit "abc")]))])
               _)))) _).
  - unfold steps. cbn [fold_left]. repeat apply reachable_step. apply reachable_typed.
  - vm_compute. reflexivity.
Defined.

Lemma X8_saved_files_are_safe_witness :
  (exists d, lit "data:image/png;base64,abc" = dataUriPrefix ++ d)
  /\ exists stem,
       lit "_.png" = stem ++ lit ".png" /\
       (1 <= List.length stem <= 50)%nat /\
       Forall (fun c => isWordUnit c = true) stem.
Proof.
  apply (X8_saved_files_are_safe tableLowerCase exampleClient
           (steps tableLowerCase exampleClient (typed tableLowerCase (lit "###"))
              [ClickGenerate;
               ProviderSettles 0 (Normal (responseOf [imagePart (lit "abc")]));
               ClickDownload])).
  - unfold steps. cbn [fold_left]. repeat apply reachable_step. apply reachable_typed.
  - vm_compute. left. reflexivity.
Defined.

Lemma X9_filename_stable_witness :
  List.length (filename tableLowerCase (lit "The quick brown fox jumps over the lazy dog, twice over!")) = 50%nat.
Proof.
  apply (proj2 (proj2 (X9_filename_stable tableLowerCase tableLowerCase_ascii
           (lit "The quick brown fox jumps over the lazy dog, twice over!")))).
  vm_compute. repeat constructor.
Defined.

(** An image in the second candidate is not looked at. *)
Lemma X12_only_first_candidate_witness :
  snd (exec (fun _ _ =>
               Normal {| candidates :=
                           Some [ {| content := Some {| parts := Some [textPart (lit "x")] |} |};
                                  {| content := Some {| parts := Some [imagePart (lit "abc")] |} |} ] |})
            (generateMonochromeImage exampleClient (lit "a cat"))) =
  Abrupt (ErrorObject (failedPrefix ++ noImageData)).
Proof.
  apply (X12_only_first_candidate exampleClient (lit "a cat") _
           {| candidates :=
                Some [ {| content := Some {| parts := Some [textPart (lit "x")] |} |};
                       {| content := Some {| parts := Some [imagePart (lit "abc")] |} |} ] |}).
  - reflexivity.
  - right. right. eexists _, _. split; [reflexivity|]. right.
    eexists. split; [reflexivity|]. right. eexists. split; [reflexivity|].
    repeat constructor.
Defined.

Lemma X14_view_of_reachable_states_witness :
  errorBox (render (app (steps tableLowerCase exampleClient (typed tableLowerCase (lit "a cat"))
      [ClickGenerate; ProviderSettles 0 (Abrupt (OtherValue (lit "offline")))]))) =
  Some unknownServiceError.
Proof.
  refine (eq_trans
            (proj1 (X14_view_of_reachable_states tableLowerCase exampleClient
                      (steps tableLowerCase exampleClient (typed tableLowerCase (lit "a cat"))
                         [ClickGenerate;
                          ProviderSettles 0 (Abrupt (OtherValue (lit "offline")))]) _)) _).
  - unfold steps. cbn [fold_left]. repeat apply reachable_step. apply reachable_typed.
  - vm_compute. reflexivity.
Defined.

Lemma X15_pending_call_matches_prompt_witness :
  step tableLowerCase exampleClient (step tableLowerCase exampleClient (typed tableLowerCase (lit "a cat")) ClickGenerate)
       (ChangePrompt (lit "a dog")) =
  step tableLowerCase exampleClient (typed tableLowerCase (lit "a cat")) ClickGenerate.
Proof.
  refine (proj2 (proj2
            (X15_pending_call_matches_prompt tableLowerCase exampleClient
               (step tableLowerCase exampleClient (typed tableLowerCase (lit "a cat")) ClickGenerate) _ _))
            (lit "a dog")).
  - apply reachable_step, reachable_typed.
  - vm_compute. reflexivity.
Defined.

(** Two ASCII prompts that differ in case and in the white space around
    them. *)
Lemma X10_filename_ignores_case_and_margins_witness :
  filename tableLowerCase (lit "A RED Fox") = filename tableLowerCase (lit "a red fOX")
  /\ filename tableLowerCase (trim (lit "  A RED Fox ")) =
     filename tableLowerCase (lit "  A RED Fox ").
Proof.
  split.
  - apply (proj2 (X10_filename_ignores_case_and_margins tableLowerCase
                    tableLowerCase_ascii (lit "A RED Fox") (lit "a red fOX"))).
    + vm_compute. repeat constructor.
    + vm_compute. repeat constructor.
    + vm_compute. reflexivity.
  - exact (proj1 (X10_filename_ignores_case_and_margins tableLowerCase
                    tableLowerCase_ascii (lit "  A RED Fox ") [])).
Defined.

(** With the image of "a cat" on display: the prompt edited to "A Dog"
    saves "a_dog.png", the prompt edited to three spaces saves
    "generated_image.png". *)
Lemma X16_download_uses_current_prompt_witness :
  (exists image,
     generatedImage
       (app (steps tableLowerCase exampleClient (typed tableLowerCase (lit "a cat"))
               [ClickGenerate;
                ProviderSettles 0 (Normal (responseOf [imagePart (lit "abc")]))])) =
     Some image /\
     outputs (steps tableLowerCase exampleClient
                (steps tableLowerCase exampleClient (typed tableLowerCase (lit "a cat"))
                   [ClickGenerate;
                    ProviderSettles 0 (Normal (responseOf [imagePart (lit "abc")]))])
                [ChangePrompt (lit "A Dog"); ClickDownload]) =
       [ClickLink image (lit "a_dog.png")])
  /\ (exists image,
        generatedImage
          (app (steps tableLowerCase exampleClient (typed tableLowerCase (lit "a cat"))
                  [ClickGenerate;
                   ProviderSettles 0 (Normal (responseOf [imagePart (lit "abc")]))])) =
        Some image /\
        outputs (steps tableLowerCase exampleClient
                   (steps tableLowerCase exampleClient (typed tableLowerCase (lit "a cat"))
                      [ClickGenerate;
                       ProviderSettles 0 (Normal (responseOf [imagePart (lit "abc")]))])
                   [ChangePrompt (lit "   "); ClickDownload]) =
          [ClickLink image (lit "generated_image.png")]).
Proof.
  assert (Hr : reachable tableLowerCase exampleClient
                 (steps tableLowerCase exampleClient (typed tableLowerCase (lit "a cat"))
                    [ClickGenerate;
                     ProviderSettles 0 (Normal (responseOf [imagePart (lit "abc")]))])).
  { unfold steps. cbn [fold_left]. repeat apply reachable_step. apply reachable_typed. }
  split.
  - destruct (X16_download_uses_current_prompt tableLowerCase tableLowerCase_ascii
                exampleClient _ (lit "A Dog") Hr eq_refl) as (image & Hi & Ho & _).
    exists image. split; [exact Hi|]. rewrite Ho. vm_compute. reflexivity.
  - destruct (X16_download_uses_current_prompt tableLowerCase tableLowerCase_ascii
                exampleClient _ (lit "   ") Hr eq_refl) as (image & Hi & _ & Hb).
    exists image. split; [exact Hi|]. rewrite Hb; [vm_compute; reflexivity|].
    repeat constructor.
Defined.

(** The saved name for a prompt with the capital dotted I, U+0130: its
    lower case is "i" and a combining dot, and the dot is what becomes the
    underscore. *)
Example download_name_dotted_capital_I :
  filename tableLowerCase ([304] ++ lit "stanbul") = lit "i_stanbul".
Proof. vm_compute. reflexivity. Qed.
